(** * Multi-label image classification: evaluation and inference pipeline

    A shallow embedding of the Python sources

      - [src/utils/dataset/datasetutils.py]       (dataset cache, tag mapping)
      - [src/utils/tensorboard/tensorboardwriter.py]
      - [src/utils/evaluation/modelevaluator.py]  (ModelEvaluator)
      - [src/inference.py]                        (inference driver)

    Python code that raises and mutates process-wide state is written in a
    state-and-exception monad [M] over the record [State]; an exception
    keeps the state changes made before it was raised, as in Python.
    Tensors and numpy arrays are lists of rows; Python floats are idealised
    as real numbers. *)

From Stdlib Require Import List String Ascii ZArith Reals Lra Lia Bool Permutation.
From stdpp Require Import gmap strings pretty.
Import ListNotations.

Local Open Scope string_scope.
Local Open Scope list_scope.

(** ** Python exceptions and values shared by all modules *)

Inductive Exn : Type :=
| ValueError (msg : string)
| TypeError (msg : string)
| AttributeError (msg : string)
| FileNotFoundError (msg : string)
| FileExistsError (msg : string)
| ZeroDivisionError (msg : string)
| StopIteration.

Inductive Res (A : Type) : Type :=
| Ok (a : A)
| Raise (e : Exn).
Arguments Ok {A} a.
Arguments Raise {A} e.

(** A tensor holding one image is a flat list of pixel values. *)
Definition Image : Type := list R.
(** Raw per-class scores: one row per sample. *)
Definition Matrix : Type := list (list R).
(** Multi-hot labels and binarized predictions: one row per sample. *)
Definition BinMatrix : Type := list (list bool).

Record Config : Type := {
  model_name : string;
  model_requires_grad : bool;
  num_classes : nat;
  model_weights : string;
  image_size : nat;
  batch_size : nat;
  model_name_to_load : string;
  dataset_name : string
}.

Inductive Device : Type := cpu | cuda.

(** An [nn.Module]: its forward pass depends on the training flag
    (dropout, batch norm) and maps a batch of images to a score matrix. *)
Record Model : Type := {
  m_forward : bool -> list Image -> Matrix;
  m_training : bool;
  m_device : Device
}.

(** The label table ([pandas.DataFrame]); [tbl_id] is the identity of the
    Python object, so that two tables are referentially identical exactly
    when the records are equal. *)
Record Table : Type := {
  tbl_id : nat;
  tbl_columns : list string;
  tbl_rows : list (list string)
}.

Record Sample : Type := {
  s_image : Image;
  s_label : list bool
}.

(** A [torch.utils.data.Dataset]: the label table it was built from (when
    there is one) and its samples. *)
Record Dataset : Type := {
  ds_table : option Table;
  ds_samples : list Sample
}.

Record DataLoader : Type := {
  dl_dataset : Dataset;
  dl_batch_size : nat;
  dl_shuffle : bool
}.

(** A collated batch: the dict with keys ['image'] and ['label']. *)
Record Batch : Type := {
  b_image : list Image;
  b_label : BinMatrix
}.

(** The file system as the program observes it.  [fs_csv] gives the parsed
    content (header, rows) of the files [pandas.read_csv] can open. *)
Record FS : Type := {
  fs_is_dir : string -> bool;
  fs_is_file : string -> bool;
  fs_listdir : string -> list string;
  fs_csv : string -> option (list string * list (list string))
}.

Inductive TBEvent : Type :=
| AddImages (writer : nat) (tag : string) (images : list Image) (step : Z).

Inductive LogLevel : Type := INFO | ERROR.

(** Process-wide state. *)
Record State : Type := {
  st_fs : FS;
  st_cuda_available : bool;
  (** [datasetutils.dataset_csv], the module-global cache slot *)
  st_dataset_csv : option Table;
  (** paths [pandas.read_csv] has read, most recent first *)
  st_disk_reads : list string;
  (** identity given to the next allocated object *)
  st_next_id : nat;
  (** future draws of the [random] module *)
  st_random : list nat;
  (** seed state of the torch generator used by shuffling samplers *)
  st_torch_seed : nat;
  (** [torch.is_grad_enabled()] *)
  st_grad_enabled : bool;
  (** forward passes so far, most recent first: batch size and the
      gradient mode under which the pass ran *)
  st_forward_log : list (nat * bool);
  (** writers whose handle has been set to [None] *)
  st_tb_closed : list nat;
  st_tb_events : list TBEvent;
  st_stdout : list string;
  st_log : list (LogLevel * string);
  (** output media written, most recent first *)
  st_saved : list string
}.

(** Field updates of [State]. *)
Definition set_fs (v : FS) (s : State) : State :=
  {| st_fs := v; st_cuda_available := st_cuda_available s;
     st_dataset_csv := st_dataset_csv s; st_disk_reads := st_disk_reads s;
     st_next_id := st_next_id s; st_random := st_random s;
     st_torch_seed := st_torch_seed s; st_grad_enabled := st_grad_enabled s;
     st_forward_log := st_forward_log s; st_tb_closed := st_tb_closed s;
     st_tb_events := st_tb_events s; st_stdout := st_stdout s; st_log := st_log s;
     st_saved := st_saved s |}.
Definition set_dataset_csv (v : option Table) (s : State) : State :=
  {| st_fs := st_fs s; st_cuda_available := st_cuda_available s; st_dataset_csv := v;
     st_disk_reads := st_disk_reads s; st_next_id := st_next_id s;
     st_random := st_random s; st_torch_seed := st_torch_seed s;
     st_grad_enabled := st_grad_enabled s; st_forward_log := st_forward_log s;
     st_tb_closed := st_tb_closed s; st_tb_events := st_tb_events s;
     st_stdout := st_stdout s; st_log := st_log s; st_saved := st_saved s |}.
Definition set_disk_reads (v : list string) (s : State) : State :=
  {| st_fs := st_fs s; st_cuda_available := st_cuda_available s;
     st_dataset_csv := st_dataset_csv s; st_disk_reads := v;
     st_next_id := st_next_id s; st_random := st_random s;
     st_torch_seed := st_torch_seed s; st_grad_enabled := st_grad_enabled s;
     st_forward_log := st_forward_log s; st_tb_closed := st_tb_closed s;
     st_tb_events := st_tb_events s; st_stdout := st_stdout s; st_log := st_log s;
     st_saved := st_saved s |}.
Definition set_next_id (v : nat) (s : State) : State :=
  {| st_fs := st_fs s; st_cuda_available := st_cuda_available s;
     st_dataset_csv := st_dataset_csv s; st_disk_reads := st_disk_reads s;
     st_next_id := v; st_random := st_random s; st_torch_seed := st_torch_seed s;
     st_grad_enabled := st_grad_enabled s; st_forward_log := st_forward_log s;
     st_tb_closed := st_tb_closed s; st_tb_events := st_tb_events s;
     st_stdout := st_stdout s; st_log := st_log s; st_saved := st_saved s |}.
Definition set_random (v : list nat) (s : State) : State :=
  {| st_fs := st_fs s; st_cuda_available := st_cuda_available s;
     st_dataset_csv := st_dataset_csv s; st_disk_reads := st_disk_reads s;
     st_next_id := st_next_id s; st_random := v; st_torch_seed := st_torch_seed s;
     st_grad_enabled := st_grad_enabled s; st_forward_log := st_forward_log s;
     st_tb_closed := st_tb_closed s; st_tb_events := st_tb_events s;
     st_stdout := st_stdout s; st_log := st_log s; st_saved := st_saved s |}.
Definition set_torch_seed (v : nat) (s : State) : State :=
  {| st_fs := st_fs s; st_cuda_available := st_cuda_available s;
     st_dataset_csv := st_dataset_csv s; st_disk_reads := st_disk_reads s;
     st_next_id := st_next_id s; st_random := st_random s; st_torch_seed := v;
     st_grad_enabled := st_grad_enabled s; st_forward_log := st_forward_log s;
     st_tb_closed := st_tb_closed s; st_tb_events := st_tb_events s;
     st_stdout := st_stdout s; st_log := st_log s; st_saved := st_saved s |}.
Definition set_grad_enabled (v : bool) (s : State) : State :=
  {| st_fs := st_fs s; st_cuda_available := st_cuda_available s;
     st_dataset_csv := st_dataset_csv s; st_disk_reads := st_disk_reads s;
     st_next_id := st_next_id s; st_random := st_random s;
     st_torch_seed := st_torch_seed s; st_grad_enabled := v;
     st_forward_log := st_forward_log s; st_tb_closed := st_tb_closed s;
     st_tb_events := st_tb_events s; st_stdout := st_stdout s; st_log := st_log s;
     st_saved := st_saved s |}.
Definition set_forward_log (v : list (nat * bool)) (s : State) : State :=
  {| st_fs := st_fs s; st_cuda_available := st_cuda_available s;
     st_dataset_csv := st_dataset_csv s; st_disk_reads := st_disk_reads s;
     st_next_id := st_next_id s; st_random := st_random s;
     st_torch_seed := st_torch_seed s; st_grad_enabled := st_grad_enabled s;
     st_forward_log := v; st_tb_closed := st_tb_closed s;
     st_tb_events := st_tb_events s; st_stdout := st_stdout s; st_log := st_log s;
     st_saved := st_saved s |}.
Definition set_tb_closed (v : list nat) (s : State) : State :=
  {| st_fs := st_fs s; st_cuda_available := st_cuda_available s;
     st_dataset_csv := st_dataset_csv s; st_disk_reads := st_disk_reads s;
     st_next_id := st_next_id s; st_random := st_random s;
     st_torch_seed := st_torch_seed s; st_grad_enabled := st_grad_enabled s;
     st_forward_log := st_forward_log s; st_tb_closed := v;
     st_tb_events := st_tb_events s; st_stdout := st_stdout s; st_log := st_log s;
     st_saved := st_saved s |}.
Definition set_tb_events (v : list TBEvent) (s : State) : State :=
  {| st_fs := st_fs s; st_cuda_available := st_cuda_available s;
     st_dataset_csv := st_dataset_csv s; st_disk_reads := st_disk_reads s;
     st_next_id := st_next_id s; st_random := st_random s;
     st_torch_seed := st_torch_seed s; st_grad_enabled := st_grad_enabled s;
     st_forward_log := st_forward_log s; st_tb_closed := st_tb_closed s;
     st_tb_events := v; st_stdout := st_stdout s; st_log := st_log s;
     st_saved := st_saved s |}.
Definition set_stdout (v : list string) (s : State) : State :=
  {| st_fs := st_fs s; st_cuda_available := st_cuda_available s;
     st_dataset_csv := st_dataset_csv s; st_disk_reads := st_disk_reads s;
     st_next_id := st_next_id s; st_random := st_random s;
     st_torch_seed := st_torch_seed s; st_grad_enabled := st_grad_enabled s;
     st_forward_log := st_forward_log s; st_tb_closed := st_tb_closed s;
     st_tb_events := st_tb_events s; st_stdout := v; st_log := st_log s;
     st_saved := st_saved s |}.
Definition set_log (v : list (LogLevel * string)) (s : State) : State :=
  {| st_fs := st_fs s; st_cuda_available := st_cuda_available s;
     st_dataset_csv := st_dataset_csv s; st_disk_reads := st_disk_reads s;
     st_next_id := st_next_id s; st_random := st_random s;
     st_torch_seed := st_torch_seed s; st_grad_enabled := st_grad_enabled s;
     st_forward_log := st_forward_log s; st_tb_closed := st_tb_closed s;
     st_tb_events := st_tb_events s; st_stdout := st_stdout s; st_log := v;
     st_saved := st_saved s |}.
Definition set_saved (v : list string) (s : State) : State :=
  {| st_fs := st_fs s; st_cuda_available := st_cuda_available s;
     st_dataset_csv := st_dataset_csv s; st_disk_reads := st_disk_reads s;
     st_next_id := st_next_id s; st_random := st_random s;
     st_torch_seed := st_torch_seed s; st_grad_enabled := st_grad_enabled s;
     st_forward_log := st_forward_log s; st_tb_closed := st_tb_closed s;
     st_tb_events := st_tb_events s; st_stdout := st_stdout s; st_log := st_log s;
     st_saved := v |}.

(** ** The state-and-exception monad *)

Definition M (A : Type) : Type := State -> Res A * State.

Definition ret {A} (a : A) : M A := fun s => (Ok a, s).
Definition raise {A} (e : Exn) : M A := fun s => (Raise e, s).
Definition bind {A B} (m : M A) (k : A -> M B) : M B :=
  fun s => match m s with
           | (Ok a, s') => k a s'
           | (Raise e, s') => (Raise e, s')
           end.
Definition get : M State := fun s => (Ok s, s).
Definition modify (f : State -> State) : M unit := fun s => (Ok tt, f s).

Declare Scope py_scope.
Delimit Scope py_scope with py.
Notation "x <- c1 ;; c2" := (bind c1 (fun x => c2))
  (at level 100, c1 at next level, right associativity) : py_scope.
Notation "c1 ;;; c2" := (bind c1 (fun _ => c2))
  (at level 100, right associativity) : py_scope.
Local Open Scope py_scope.

(** External collaborators: code of the repository and of its libraries
    that is not part of the sources embedded here. *)
Class Collaborators : Type := {
  (** [pathutils.get_dataset_path] *)
  get_dataset_path : Config -> string;
  (** [pathutils.get_model_to_load_path] *)
  get_model_to_load_path : Config -> string;
  (** [modelfactory.create_model(name, requires_grad, num_classes, weights)] *)
  create_model : string -> bool -> nat -> string -> Model;
  (** [modelloadingutils.load_model(path, model)]: the model after the
      parameters were loaded into it, and the epoch count the call returns *)
  load_model : FS -> string -> Model -> Model * Z;
  (** [ImageDataset(csv, mode, config)]: the samples of one split *)
  image_dataset_samples : Table -> string -> Config -> list Sample;
  (** [torch.randperm] as used by the shuffling sampler *)
  randperm : nat -> nat -> list nat;
  randperm_perm : forall seed n, Permutation (randperm seed n) (seq 0 n);
  (** [metricutils.compute_metrics]: (precision, recall, f1), each a scalar
      or, for [average=None], one value per class *)
  compute_metrics :
    BinMatrix -> BinMatrix -> option R -> option string -> list R * list R * list R;
  (** threshold [metricutils] uses when the caller passes [None] *)
  default_threshold : R;
  (** [imageutils] *)
  denormalize_images : list Image -> Config -> list Image;
  convert_labels_to_color : BinMatrix -> nat -> list Image;
  overlay_predictions_batch :
    list Image -> BinMatrix -> gmap nat string -> BinMatrix -> list Image;
  (** [os.path] and [pathlib] *)
  path_parent : string -> string;
  path_join : string -> string -> string;
  path_basename : string -> string;
  (** [os.makedirs(path, exist_ok=True)] *)
  os_makedirs : FS -> string -> Res FS;
  (** [ImageDatasetPredict(image_paths, config)] and
      [VideoDatasetPredict(path, time_interval, config)] *)
  image_dataset_predict : FS -> list string -> Config -> Dataset;
  video_dataset_predict : FS -> string -> R -> Config -> Dataset;
  (** [ImageDatasetPredict.preprocess_single_image] *)
  preprocess_single_image : FS -> string -> Config -> Image
}.

(** [DataLoader(dataset, batch_size=..., shuffle=...)]; torch rejects a
    batch size that is not positive. *)
Definition DataLoader_new (data : Dataset) (bs : nat) (shuffle : bool) : M DataLoader :=
  match bs with
  | O => raise (ValueError "batch_size should be a positive integer value, but got batch_size=0")
  | S _ => ret {| dl_dataset := data; dl_batch_size := bs; dl_shuffle := shuffle |}
  end.

(** ** datasetutils.py *)
Module DatasetUtils.
Section WithCollaborators.
Context `{Collaborators}.


(** [pd.read_csv(path)]: a fresh DataFrame object, or FileNotFoundError. *)
Definition pd_read_csv (path : string) : M Table :=
  fun s =>
    match fs_csv (st_fs s) path with
    | None => (Raise (FileNotFoundError path), s)
    | Some (header, rows) =>
        (Ok {| tbl_id := st_next_id s; tbl_columns := header; tbl_rows := rows |},
         set_next_id (S (st_next_id s)) (set_disk_reads (path :: st_disk_reads s) s))
    end.

(** [__get_dataset_csv(config)] *)
Definition __get_dataset_csv (config : Config) : M Table :=
  s <- get ;;
  match st_dataset_csv s with
  | None =>
      t <- pd_read_csv (get_dataset_path config) ;;
      modify (set_dataset_csv (Some t)) ;;;
      ret t
  | Some t => ret t
  end.

(** [enumerate(xs)] *)
Fixpoint enumerate_from {A} (start : nat) (xs : list A) : list (nat * A) :=
  match xs with
  | [] => []
  | x :: xs' => (start, x) :: enumerate_from (S start) xs'
  end.
Definition enumerate {A} (xs : list A) : list (nat * A) := enumerate_from 0 xs.

(** A dict comprehension [{k: v for k, v in pairs}]: later pairs overwrite
    earlier ones. *)
Definition dict_of_pairs (pairs : list (nat * string)) : gmap nat string :=
  fold_left (fun m p => <[fst p := snd p]> m) pairs ∅.

(** [__get_index_to_tag_mapping(csv)] *)
Definition __get_index_to_tag_mapping (csv : Table) : gmap nat string :=
  let tag_columns := skipn 1 (tbl_columns csv) in
  let index_to_tag := dict_of_pairs (enumerate tag_columns) in
  index_to_tag.

(** [ImageDataset(dataset_csv, mode=mode, config=config)] *)
Definition ImageDataset (csv : Table) (mode : string) (config : Config) : Dataset :=
  {| ds_table := Some csv; ds_samples := image_dataset_samples csv mode config |}.

(** [get_train_valid_test_loaders(config)] *)
Definition get_train_valid_test_loaders (config : Config)
  : M (DataLoader * DataLoader * DataLoader) :=
  dataset_csv <- __get_dataset_csv config ;;
  modify (set_dataset_csv (Some dataset_csv)) ;;;
  let train_data := ImageDataset dataset_csv "train" config in
  let valid_data := ImageDataset dataset_csv "valid" config in
  let test_data := ImageDataset dataset_csv "test" config in
  train_loader <- DataLoader_new train_data (batch_size config) true ;;
  valid_loader <- DataLoader_new valid_data (batch_size config) false ;;
  test_loader <- DataLoader_new test_data (batch_size config) false ;;
  ret (train_loader, valid_loader, test_loader).

(** [get_data_loader_by_name(mode, config, shuffle=False)] *)
Definition get_data_loader_by_name (mode : string) (config : Config) (shuffle : bool)
  : M DataLoader :=
  dataset_csv <- __get_dataset_csv config ;;
  modify (set_dataset_csv (Some dataset_csv)) ;;;
  let data := ImageDataset dataset_csv mode config in
  loader <- DataLoader_new data (batch_size config) shuffle ;;
  ret loader.

(** [get_dataset_tag_mappings(config)] *)
Definition get_dataset_tag_mappings (config : Config) : M (gmap nat string) :=
  dataset_csv <- __get_dataset_csv config ;;
  modify (set_dataset_csv (Some dataset_csv)) ;;;
  ret (__get_index_to_tag_mapping dataset_csv).

(** The three public entry points of the dataset cache, as one call type. *)
Inductive EntryCall : Type :=
| CallTrainValidTest (config : Config)
| CallLoaderByName (mode : string) (config : Config) (shuffle : bool)
| CallTagMappings (config : Config).

Inductive EntryResult : Type :=
| ResLoaders (l : DataLoader * DataLoader * DataLoader)
| ResLoader (l : DataLoader)
| ResMapping (m : gmap nat string).

Definition run_entry (c : EntryCall) : M EntryResult :=
  match c with
  | CallTrainValidTest config =>
      r <- get_train_valid_test_loaders config ;; ret (ResLoaders r)
  | CallLoaderByName mode config shuffle =>
      r <- get_data_loader_by_name mode config shuffle ;; ret (ResLoader r)
  | CallTagMappings config =>
      r <- get_dataset_tag_mappings config ;; ret (ResMapping r)
  end.

(** The result of an entry point was built from the table object [t]. *)
Definition built_from (t : Table) (r : EntryResult) : Prop :=
  match r with
  | ResLoaders (a, b, c) =>
      ds_table (dl_dataset a) = Some t /\ ds_table (dl_dataset b) = Some t
      /\ ds_table (dl_dataset c) = Some t
  | ResLoader a => ds_table (dl_dataset a) = Some t
  | ResMapping m => m = __get_index_to_tag_mapping t
  end.

(** The configuration an entry-point call passes. *)
Definition entry_config (c : EntryCall) : Config :=
  match c with
  | CallTrainValidTest config => config
  | CallLoaderByName _ config _ => config
  | CallTagMappings config => config
  end.

(** What a call on a filled cache can produce: a result built from the
    cached table, or the loader constructor's refusal of a batch size 0. *)
Definition served_from (t : Table) (c : EntryCall) (r : Res EntryResult) : Prop :=
  (exists v, r = Ok v /\ built_from t v)
  \/ (batch_size (entry_config c) = 0 /\ exists msg, r = Raise (ValueError msg)).

(** A sequence of entry-point calls; a caller that catches an exception
    goes on with the next call. *)
Fixpoint run_calls (cs : list EntryCall) (s : State) : list (Res EntryResult) * State :=
  match cs with
  | [] => ([], s)
  | c :: cs' =>
      let '(r, s1) := run_entry c s in
      let '(rs, s2) := run_calls cs' s1 in
      (r :: rs, s2)
  end.

End WithCollaborators.
End DatasetUtils.

(** ** tensorboardwriter.py *)
Module TensorBoardWriter.
Section WithCollaborators.
Context `{Collaborators}.

(** A [TensorBoardWriter] object: [tbw_id] names its [SummaryWriter]
    handle, which [close_writer] sets to [None]. *)
Record t : Type := {
  tbw_id : nat;
  tbw_config : Config
}.

(** [self.writer.add_images(tag, images, step)]; on a closed writer the
    handle is [None] and the attribute lookup fails. *)
Definition add_images (self : t) (tag : string) (images : list Image) (step : Z) : M unit :=
  s <- get ;;
  if existsb (Nat.eqb (tbw_id self)) (st_tb_closed s)
  then raise (AttributeError "'NoneType' object has no attribute 'add_images'")
  else modify (set_tb_events (AddImages (tbw_id self) tag images step :: st_tb_events s)).

(** [write_image_test_results(images, true_labels, predictions, step, runmode, dataSubset)] *)
Definition write_image_test_results (self : t) (images : list Image)
  (true_labels predictions : BinMatrix) (step : Z) (runmode dataSubset : string) : M unit :=
  let denormalized_images := denormalize_images images (tbw_config self) in
  let pil_images := denormalized_images in
  mapping <- DatasetUtils.get_dataset_tag_mappings (tbw_config self) ;;
  let overlaid_images := overlay_predictions_batch pil_images predictions mapping true_labels in
  let tensor_overlaid_images := overlaid_images in
  add_images self (runmode +:+ "/" +:+ dataSubset +:+ "/Images") denormalized_images step ;;;
  add_images self (runmode +:+ "/" +:+ dataSubset +:+ "/True Labels")
    (convert_labels_to_color true_labels (num_classes (tbw_config self))) step ;;;
  add_images self (runmode +:+ "/" +:+ dataSubset +:+ "/Predictions")
    (convert_labels_to_color predictions (num_classes (tbw_config self))) step ;;;
  add_images self (runmode +:+ "/" +:+ dataSubset +:+ "/OverlayPredictions")
    tensor_overlaid_images step.

(** [close_writer()] *)
Definition close_writer (self : t) : M unit :=
  s <- get ;;
  if existsb (Nat.eqb (tbw_id self)) (st_tb_closed s)
  then ret tt
  else modify (set_tb_closed (tbw_id self :: st_tb_closed s)).

End WithCollaborators.
End TensorBoardWriter.

(** ** torch and numpy primitives used by the evaluator *)
Module Torch.
Section WithCollaborators.
Context `{Collaborators}.

Local Open Scope R_scope.

Definition sigmoid (x : R) : R := 1 / (1 + exp (- x)).

(** The loss of one logit [x] against one target [y], as documented for
    [torch.nn.BCEWithLogitsLoss]. *)
Definition bce_with_logits (x y : R) : R :=
  - (y * ln (sigmoid x) + (1 - y) * ln (1 - sigmoid x)).

Definition sum_list (l : list R) : R := fold_right Rplus 0 l.

Fixpoint zip_with2 {A B C} (f : A -> B -> C) (xs : list A) (ys : list B) : list C :=
  match xs, ys with
  | x :: xs', y :: ys' => f x y :: zip_with2 f xs' ys'
  | _, _ => []
  end.

(** All element losses of a batch, row by row.  Torch requires outputs
    and targets of equal shape; the loss is meant on such inputs only. *)
Definition element_losses (outputs targets : Matrix) : list R :=
  concat (zip_with2 (zip_with2 bce_with_logits) outputs targets).

Inductive Reduction : Type := reduction_mean | reduction_sum.

(** A loss criterion maps (outputs, targets) to the scalar [loss.item()]. *)
Definition Criterion : Type := Matrix -> Matrix -> R.

(** [nn.BCEWithLogitsLoss(reduction=...)] *)
Definition BCEWithLogitsLoss_with (reduction : Reduction) : Criterion :=
  fun outputs targets =>
    let losses := element_losses outputs targets in
    match reduction with
    | reduction_sum => sum_list losses
    | reduction_mean => sum_list losses / INR (length losses)
    end.

(** [nn.BCEWithLogitsLoss()]: the constructor's default is [reduction='mean']. *)
Definition BCEWithLogitsLoss : Criterion := BCEWithLogitsLoss_with reduction_mean.

(** [labels.float()] *)
Definition float_of_labels (labels : BinMatrix) : Matrix :=
  map (map (fun b : bool => if b then 1 else 0)) labels.

(** [np.vstack(arrays)]: the rows of all arrays in order; numpy refuses an
    empty sequence. *)
Definition np_vstack {A} (arrays : list (list A)) : M (list A) :=
  match arrays with
  | [] => raise (ValueError "need at least one array to concatenate")
  | _ => ret (concat arrays)
  end.

(** [with torch.no_grad(): body]: the previous mode is restored on every
    exit, normal or exceptional. *)
Definition with_no_grad {A} (body : M A) : M A :=
  fun s =>
    let prev := st_grad_enabled s in
    let '(r, s') := body (set_grad_enabled false s) in
    (r, set_grad_enabled prev s').

(** [model(images)] *)
Definition forward (model : Model) (images : list Image) : M Matrix :=
  s <- get ;;
  modify (set_forward_log ((length images, st_grad_enabled s) :: st_forward_log s)) ;;;
  ret (m_forward model (m_training model) images).

(** [model.eval()] and [model.to(device)] *)
Definition module_eval (model : Model) : Model :=
  {| m_forward := m_forward model; m_training := false; m_device := m_device model |}.
Definition module_to (model : Model) (device : Device) : Model :=
  {| m_forward := m_forward model; m_training := m_training model; m_device := device |}.

(** *** Iterating a [DataLoader] (default [drop_last=False]) *)

Fixpoint chunks_fuel {A} (fuel n : nat) (l : list A) : list (list A) :=
  match fuel with
  | O => []
  | S fuel' =>
      match l with
      | [] => []
      | _ => firstn n l :: chunks_fuel fuel' n (skipn n l)
      end
  end.
Definition chunks {A} (n : nat) (l : list A) : list (list A) :=
  chunks_fuel (length l) n l.

(** The index order of the sampler: sequential, or a fresh permutation. *)
Definition sampler_order (dl : DataLoader) : M (list nat) :=
  let n := length (ds_samples (dl_dataset dl)) in
  if dl_shuffle dl
  then s <- get ;;
       modify (set_torch_seed (S (st_torch_seed s))) ;;;
       ret (randperm (st_torch_seed s) n)
  else ret (seq 0 n).

Definition select_samples (samples : list Sample) (order : list nat) : list Sample :=
  omap (fun i => samples !! i) order.

(** [default_collate] *)
Definition collate (chunk : list Sample) : Batch :=
  {| b_image := map s_image chunk; b_label := map s_label chunk |}.

(** The samples in the order one pass over the loader visits them. *)
Definition iter_samples (dl : DataLoader) : M (list Sample) :=
  order <- sampler_order dl ;;
  ret (select_samples (ds_samples (dl_dataset dl)) order).

(** [iter(data_loader)], run to the end *)
Definition iter_loader (dl : DataLoader) : M (list Batch) :=
  samples <- iter_samples dl ;;
  ret (map collate (chunks (dl_batch_size dl) samples)).

(** [len(data_loader)] *)
Definition len_loader (dl : DataLoader) : nat :=
  let n := length (ds_samples (dl_dataset dl)) in
  (n + dl_batch_size dl - 1) / dl_batch_size dl.

(** [random.randint(a, b)] *)
Definition random_randint (a b : Z) : M Z :=
  if (b <? a)%Z then raise (ValueError "empty range for randrange()")
  else
    s <- get ;;
    match st_random s with
    | [] => ret a
    | d :: rest =>
        modify (set_random rest) ;;;
        ret (a + Z.of_nat d mod (b - a + 1))%Z
    end.

(** [l[start:end]] for non-negative bounds *)
Definition py_slice {A} (l : list A) (start stop : Z) : list A :=
  firstn (Z.to_nat stop - Z.to_nat start) (skipn (Z.to_nat start) l).

End WithCollaborators.
End Torch.

(** ** metricutils (binarization) *)
Module MetricUtils.
Section WithCollaborators.
Context `{Collaborators}.

(** Modelled from the spec: [metricutils.getpredictions_with_threshold] is
    not part of the sources.  The spec describes it as independent per-class
    sigmoid-threshold binarization: sigmoid, then compare to the single
    scalar threshold, the same for every class. *)
Definition binarize (threshold : R) (score : R) : bool :=
  if Rlt_dec threshold (Torch.sigmoid score) then true else false.

(** The threshold in force: the caller's, or the configured one when the
    caller passes [None]. *)
Definition threshold_value (threshold : option R) : R :=
  match threshold with
  | Some t => t
  | None => default_threshold
  end.

(** Modelled from the spec: [metricutils.getpredictions_with_threshold]
    (see [binarize]). *)
Definition getpredictions_with_threshold (outputs : Matrix) (threshold : option R)
  : BinMatrix :=
  map (map (binarize (threshold_value threshold))) outputs.

End WithCollaborators.
End MetricUtils.

(** ** modelevaluator.py *)
Module ModelEvaluator.
Section WithCollaborators.
Context `{Collaborators}.
(** [from src.config import config]: the module-global configuration *)
Variable config : Config.

Import Torch.

Record t : Type := {
  model : Model;
  self_config : Config;
  criterion : Criterion;
  device : Device;
  self_num_classes : nat;
  tensorBoardWriter : option TensorBoardWriter.t;
  epochs : option Z
}.

(** [__init__(model, criterion, device, tensorBoardWriter=None, config=config, epochs=None)] *)
Definition __init__ (model : Model) (criterion : Criterion) (device : Device)
  (tensorBoardWriter : option TensorBoardWriter.t) (config : Config) (epochs : option Z) : t :=
  {| model := model;
     self_config := config;
     criterion := criterion;
     device := device;
     self_num_classes := num_classes config;
     tensorBoardWriter := tensorBoardWriter;
     epochs := epochs |}.

(** [__exit__]: closes the writer when there is one *)
Definition __exit__ (self : t) : M unit :=
  match tensorBoardWriter self with
  | Some w => TensorBoardWriter.close_writer w
  | None => ret tt
  end.

(** [os.path.exists(path)] *)
Definition os_path_exists (fs : FS) (path : string) : bool :=
  fs_is_dir fs path || fs_is_file fs path.

Definition logger_info (msg : string) : M unit :=
  s <- get ;; modify (set_log ((INFO, msg) :: st_log s)).
Definition logger_error (msg : string) : M unit :=
  s <- get ;; modify (set_log ((ERROR, msg) :: st_log s)).

Definition missing_model_message (modelToLoadPath : string) : string :=
  "Could not find a model at path: " +:+ modelToLoadPath
  +:+ ". Check to ensure the config/json value for model_name_to_load is correct!".

(** [from_file(cls, device, tensorBoardWriter=None, thisconfig=config)] *)
Definition from_file (device : Device) (tensorBoardWriter : option TensorBoardWriter.t)
  (thisconfig : Config) : M t :=
  let thisconfig := config in
  let model :=
    module_to (create_model (model_name thisconfig) (model_requires_grad thisconfig)
                 (num_classes thisconfig) (model_weights thisconfig)) device in
  let criterion := BCEWithLogitsLoss in
  let modelToLoadPath := get_model_to_load_path thisconfig in
  let epochs := 0%Z in
  s <- get ;;
  loaded <-
    (if os_path_exists (st_fs s) modelToLoadPath
     then
       logger_info "Loading the best model..." ;;;
       ret (load_model (st_fs s) modelToLoadPath model)
     else
       logger_error ("Could not find a model at path: " +:+ modelToLoadPath) ;;;
       raise (ValueError (missing_model_message modelToLoadPath))) ;;
  let model := fst loaded in
  let epochs := snd loaded in
  ret (__init__ model criterion device tensorBoardWriter thisconfig (Some epochs)).

(** The loop body of [predict], for one batch. *)
Definition predict_step (self : t) (model : Model)
  (acc : list Matrix * list BinMatrix * R) (batch : Batch)
  : M (list Matrix * list BinMatrix * R) :=
  let '(prediction_labels, true_labels, total_loss) := acc in
  let images := b_image batch in
  let labels := b_label batch in
  outputs <- forward model images ;;
  let loss := criterion self outputs (float_of_labels labels) in
  let total_loss := (total_loss + loss)%R in
  let prediction_labels := prediction_labels ++ [outputs] in
  let true_labels := true_labels ++ [labels] in
  ret (prediction_labels, true_labels, total_loss).

Fixpoint predict_loop (self : t) (model : Model) (batches : list Batch)
  (acc : list Matrix * list BinMatrix * R) : M (list Matrix * list BinMatrix * R) :=
  match batches with
  | [] => ret acc
  | batch :: rest =>
      acc' <- predict_step self model acc batch ;;
      predict_loop self model rest acc'
  end.

(** [total_loss / len(data_loader.dataset)] *)
Definition py_truediv (x : R) (n : nat) : M R :=
  match n with
  | O => raise (ZeroDivisionError "float division by zero")
  | S _ => ret (x / INR n)%R
  end.

(** [predict(self, data_loader)].  [self.model.eval()] switches the
    module to eval mode; every forward pass below runs in that mode. *)
Definition predict (self : t) (data_loader : DataLoader) : M (Matrix * BinMatrix * R) :=
  let model := module_eval (model self) in
  let prediction_labels := [] in
  let true_labels := [] in
  let total_loss := 0%R in
  acc <- with_no_grad (
    batches <- iter_loader data_loader ;;
    predict_loop self model batches (prediction_labels, true_labels, total_loss)) ;;
  let '(prediction_labels, true_labels, total_loss) := acc in
  prediction_labels <- np_vstack prediction_labels ;;
  true_labels <- np_vstack true_labels ;;
  avg_loss <- py_truediv total_loss (length (ds_samples (dl_dataset data_loader))) ;;
  ret (prediction_labels, true_labels, avg_loss).

(** [next(itertools.islice(data_loader, index, None))] *)
Definition islice_next (data_loader : DataLoader) (index : Z) : M Batch :=
  batches <- iter_loader data_loader ;;
  match batches !! Z.to_nat index with
  | Some b => ret b
  | None => raise StopIteration
  end.

(** [evaluate_predictions(self, data_loader, prediction_outputs, true_labels,
      epoch, datasetSubset, average, metricMode=None, threshold=None)] *)
Definition evaluate_predictions (self : t) (data_loader : DataLoader)
  (prediction_outputs : Matrix) (true_labels : BinMatrix) (epoch : Z)
  (datasetSubset : string) (average : option string) (metricMode : option string)
  (threshold : option R) : M (list R * list R * list R) :=
  let predictions_binary :=
    MetricUtils.getpredictions_with_threshold prediction_outputs threshold in
  let '(precision, recall, f1) :=
    compute_metrics true_labels predictions_binary threshold average in
  match metricMode, tensorBoardWriter self with
  | Some metricMode, Some writer =>
      random_batch_index <- random_randint 0 (Z.of_nat (len_loader data_loader) - 1) ;;
      batch_dict <- islice_next data_loader random_batch_index ;;
      let images := b_image batch_dict in
      let labels := b_label batch_dict in
      let start_index := (random_batch_index * Z.of_nat (dl_batch_size data_loader))%Z in
      let end_index :=
        Z.min ((random_batch_index + 1) * Z.of_nat (dl_batch_size data_loader))
              (Z.of_nat (length predictions_binary)) in
      let selected_predictions := py_slice predictions_binary start_index end_index in
      TensorBoardWriter.write_image_test_results writer images labels
        selected_predictions epoch metricMode datasetSubset
  | _, _ => ret tt
  end ;;;
  ret (f1, precision, recall).

(** [evaluate(self, data_loader, epoch, datasetSubset, metricMode=None,
      average='micro', threshold=None)] *)
Definition evaluate (self : t) (data_loader : DataLoader) (epoch : Z)
  (datasetSubset : string) (metricMode : option string) (average : option string)
  (threshold : option R) : M (R * list R * list R * list R) :=
  r <- predict self data_loader ;;
  let '(all_outputs, all_labels, avg_loss) := r in
  m <- evaluate_predictions self data_loader all_outputs all_labels epoch
         datasetSubset average metricMode threshold ;;
  let '(f1, precision, recall) := m in
  ret (avg_loss, f1, precision, recall).

(** The composition the specification describes: [predict] first, then
    [evaluate_predictions] on its outputs with the same arguments, from the
    state [predict] left; an exception of either ends the call. *)
Definition evaluate_composed (self : t) (data_loader : DataLoader) (epoch : Z)
  (datasetSubset : string) (metricMode : option string) (average : option string)
  (threshold : option R) (s : State) : Res (R * list R * list R * list R) * State :=
  match predict self data_loader s with
  | (Raise e, s1) => (Raise e, s1)
  | (Ok (raw_scores, labels, avg_loss), s1) =>
      match evaluate_predictions self data_loader raw_scores labels epoch
              datasetSubset average metricMode threshold s1 with
      | (Raise e, s2) => (Raise e, s2)
      | (Ok (f1, precision, recall), s2) => (Ok (avg_loss, f1, precision, recall), s2)
      end
  end.

(** What one batch contributes, in terms of the samples collated into it:
    the score rows of the model in eval mode, and the criterion's value. *)
Definition chunk_scores (self : t) (chunk : list Sample) : Matrix :=
  m_forward (model self) false (map s_image chunk).
Definition chunk_loss (self : t) (chunk : list Sample) : R :=
  criterion self (chunk_scores self chunk) (float_of_labels (map s_label chunk)).
(** The running total after the batches [chunks], starting from [total]. *)
Definition accumulated_loss (self : t) (chunks : list (list Sample)) (total : R) : R :=
  fold_left (fun acc chunk => (acc + chunk_loss self chunk)%R) chunks total.

(** Values a caller can pass positionally. *)
Inductive PyVal : Type :=
| VLoader (dl : DataLoader)
| VBool (b : bool)
| VFloat (x : R).

(** The call [self.predict(args...)]: Python binds the arguments to the
    signature [predict(self, data_loader)] before the body runs. *)
Definition call_predict (self : t) (args : list PyVal) : M (Matrix * BinMatrix * R) :=
  match args with
  | [VLoader data_loader] => predict self data_loader
  | [_] => raise (TypeError "object has no len()")
  | [] => raise (TypeError "predict() missing 1 required positional argument: 'data_loader'")
  | _ => raise (TypeError ("predict() takes 2 positional arguments but "
                           +:+ pretty (S (length args)) +:+ " were given"))
  end.

(** The attributes of a [ModelEvaluator] that are methods. *)
Definition method_names : list string :=
  ["from_trainer"; "from_file"; "predict"; "evaluate_old";
   "evaluate_predictions"; "evaluate"].

(** [getattr(self, name)] for a method name *)
Definition lookup_method (name : string) : M unit :=
  if existsb (String.eqb name) method_names then ret tt
  else raise (AttributeError ("'ModelEvaluator' object has no attribute '" +:+ name +:+ "'")).

End WithCollaborators.
End ModelEvaluator.

(** ** inference.py *)
Module Inference.
Section WithCollaborators.
Context `{Collaborators}.
(** [from config import config] *)
Variable config : Config.

(** The parsed command line. *)
Record Args : Type := {
  input_path : string;
  output_folder : option string;
  time_interval : R
}.

(** [str.lower()] on ASCII text *)
Definition ascii_lower (c : ascii) : ascii :=
  let n := nat_of_ascii c in
  if (65 <=? n)%nat && (n <=? 90)%nat then ascii_of_nat (n + 32) else c.
Fixpoint str_lower (s : string) : string :=
  match s with
  | EmptyString => EmptyString
  | String c rest => String (ascii_lower c) (str_lower rest)
  end.

(** [s.endswith(suffix)] and [s.endswith((suffix1, suffix2, ...))] *)
Definition str_endswith (s suffix : string) : bool :=
  let n := String.length s in
  let m := String.length suffix in
  (m <=? n)%nat && String.eqb (substring (n - m) m s) suffix.
Definition str_endswith_any (s : string) (suffixes : list string) : bool :=
  existsb (str_endswith s) suffixes.

Definition image_extensions : list string := [".png"; ".jpg"; ".jpeg"].
Definition video_extensions : list string := [".mp4"; ".avi"; ".mov"].

(** The list comprehension over [os.listdir(input_path)]. *)
Definition list_image_paths (fs : FS) (input_path : string) : list string :=
  map (fun img => path_join input_path img)
      (List.filter (fun img => str_endswith_any (str_lower img) image_extensions)
         (fs_listdir fs input_path)).

(** [print(msg)] *)
Definition print (msg : string) : M unit :=
  s <- get ;; modify (set_stdout (msg :: st_stdout s)).

(** [image.save(save_path)] and the video writer of [overlay_predictions_video] *)
Definition save_media (save_path : string) : M unit :=
  s <- get ;; modify (set_saved (save_path :: st_saved s)).

(** [os.makedirs(output_folder, exist_ok=True)] *)
Definition makedirs (output_folder : string) : M unit :=
  s <- get ;;
  match os_makedirs (st_fs s) output_folder with
  | Ok fs' => modify (set_fs fs')
  | Raise e => raise e
  end.

(** [results['key']] where [results] is the tuple [predict] returns *)
Definition tuple_getitem_str {A B} (results : A) (key : string) : M B :=
  raise (TypeError "tuple indices must be integers or slices, not str").

(** The loop saving one annotated image per (path, prediction) pair. *)
Fixpoint save_overlays (output_folder : string) (items : list (string * list bool))
  : M unit :=
  match items with
  | [] => ret tt
  | (image_path, pred) :: rest =>
      mapping <- DatasetUtils.get_dataset_tag_mappings config ;;
      let save_path := path_join output_folder (path_basename image_path) in
      save_media save_path ;;;
      save_overlays output_folder rest
  end.

(** The components of a path between its slashes. *)
Fixpoint split_slash (p : string) : list string :=
  match p with
  | EmptyString => [EmptyString]
  | String c rest =>
      if Ascii.eqb c "/" then EmptyString :: split_slash rest
      else match split_slash rest with
           | part :: parts => String c part :: parts
           | [] => [String c EmptyString]
           end
  end.

(** The root pathlib keeps on a POSIX system: one slash, or two when the
    text starts with exactly two. *)
Definition path_root (p : string) : string :=
  if String.prefix "///" p then "/"
  else if String.prefix "//" p then "//"
  else if String.prefix "/" p then "/"
  else "".

(** [Path(text)] as [str] renders it on a POSIX system: empty and [.]
    components and a trailing slash are dropped, and the empty path is
    rendered as [.]. *)
Definition Path (text : string) : string :=
  let parts :=
    List.filter (fun part => negb (String.eqb part "" || String.eqb part "."))
      (split_slash text) in
  let root := path_root text in
  match parts with
  | [] => if String.eqb root "" then "." else root
  | _ => root +:+ String.concat "/" parts
  end.

(** [args.output_folder or input_path.parent.joinpath('inference_outputs')]:
    [None] and the empty string are falsy. *)
Definition resolve_output_folder (args : Args) : string :=
  match output_folder args with
  | Some folder => if String.eqb folder "" then
                     path_join (path_parent (Path (input_path args))) "inference_outputs"
                   else folder
  | None => path_join (path_parent (Path (input_path args))) "inference_outputs"
  end.

(** [main(args)] *)
Definition main (args : Args) : M unit :=
  s <- get ;;
  let device := if st_cuda_available s then cuda else cpu in
  let input_path := Path (input_path args) in
  let output_folder := resolve_output_folder args in
  makedirs output_folder ;;;
  modelEvaluator <- ModelEvaluator.from_file config device None config ;;
  s <- get ;;
  if fs_is_dir (st_fs s) input_path then
    let image_paths := list_image_paths (st_fs s) input_path in
    let image_dataset := image_dataset_predict (st_fs s) image_paths config in
    dataset_loader <- DataLoader_new image_dataset (batch_size config) false ;;
    predictionResults <-
      ModelEvaluator.call_predict modelEvaluator
        [ModelEvaluator.VLoader dataset_loader; ModelEvaluator.VBool false;
         ModelEvaluator.VFloat 0.5] ;;
    predictions <- tuple_getitem_str predictionResults "predictions" ;;
    image_paths <- tuple_getitem_str predictionResults "image_paths" ;;
    let flattened_image_paths := concat image_paths in
    save_overlays output_folder (combine flattened_image_paths predictions)
  else if fs_is_file (st_fs s) input_path then
    if str_endswith_any (str_lower input_path) image_extensions then
      let preprocessed_img := preprocess_single_image (st_fs s) input_path config in
      ModelEvaluator.lookup_method "single_image_prediction" ;;;
      mapping <- DatasetUtils.get_dataset_tag_mappings config ;;
      let save_path := path_join output_folder (path_basename input_path) in
      save_media save_path
    else if str_endswith_any (str_lower input_path) video_extensions then
      let video_dataset :=
        video_dataset_predict (st_fs s) input_path (time_interval args) config in
      dataset_loader <- DataLoader_new video_dataset (batch_size config) false ;;
      predictionResults <-
        ModelEvaluator.call_predict modelEvaluator
          [ModelEvaluator.VLoader dataset_loader; ModelEvaluator.VBool false;
           ModelEvaluator.VFloat 0.5] ;;
      predictions <- tuple_getitem_str (B := BinMatrix) predictionResults "predictions" ;;
      frame_counts <- tuple_getitem_str (B := list (list nat)) predictionResults "frame_counts" ;;
      let flattened_frame_counts := concat frame_counts in
      let save_path := path_join output_folder (path_basename input_path) in
      mapping <- DatasetUtils.get_dataset_tag_mappings config ;;
      save_media save_path
    else
      print ("Unsupported file type for input: " +:+ input_path)
  else
    print ("Invalid input path: " +:+ input_path).

End WithCollaborators.
End Inference.

(** ** A concrete world: collaborators, configuration and file system

    Used to run the definitions above on explicit inputs. *)
Module Demo.

(** Splits a path at its last slash: the parent (when there is a slash)
    and the final component. *)
Fixpoint path_split (p : string) : option string * string :=
  match p with
  | EmptyString => (None, EmptyString)
  | String c rest =>
      match path_split rest with
      | (Some parent, base) => (Some (String c parent), base)
      | (None, base) =>
          if Ascii.eqb c "/" then (Some EmptyString, base) else (None, String c base)
      end
  end.

Definition zero_model (classes : nat) : Model :=
  {| m_forward := fun _ images => map (fun _ => repeat 0%R classes) images;
     m_training := true;
     m_device := cpu |}.

Definition sample_of_row (row : list string) : Sample :=
  {| s_image := []; s_label := map (String.eqb "1") (skipn 1 row) |}.

Definition mkdir (fs : FS) (path : string) : FS :=
  {| fs_is_dir := fun p => String.eqb p path || fs_is_dir fs p;
     fs_is_file := fs_is_file fs;
     fs_listdir := fs_listdir fs;
     fs_csv := fs_csv fs |}.

#[export] Instance collaborators : Collaborators := {|
  get_dataset_path := fun config => "datasets/" +:+ dataset_name config +:+ ".csv";
  get_model_to_load_path := fun config => "models/" +:+ model_name_to_load config +:+ ".pth";
  create_model := fun _ _ classes _ => zero_model classes;
  load_model := fun _ _ model => (model, 7%Z);
  image_dataset_samples := fun csv _ _ => map sample_of_row (tbl_rows csv);
  randperm := fun _ n => rev (seq 0 n);
  randperm_perm := fun _ n => Permutation_sym (Permutation_rev (seq 0 n));
  compute_metrics := fun _ _ _ _ => ([], [], []);
  default_threshold := 0.5%R;
  denormalize_images := fun images _ => images;
  convert_labels_to_color := fun _ _ => [];
  overlay_predictions_batch := fun images _ _ _ => images;
  path_parent := fun p => match fst (path_split p) with Some parent => parent | None => "." end;
  path_join := fun a b => a +:+ "/" +:+ b;
  path_basename := fun p => snd (path_split p);
  os_makedirs := fun fs path =>
    if fs_is_file fs path then Raise (FileExistsError path) else Ok (mkdir fs path);
  image_dataset_predict := fun _ paths _ =>
    {| ds_table := None;
       ds_samples := map (fun _ => {| s_image := []; s_label := [] |}) paths |};
  video_dataset_predict := fun _ _ _ _ => {| ds_table := None; ds_samples := [] |};
  preprocess_single_image := fun _ _ _ => []
|}.

Definition config : Config :=
  {| model_name := "resnet"; model_requires_grad := false; num_classes := 2;
     model_weights := "DEFAULT"; image_size := 224; batch_size := 2;
     model_name_to_load := "best"; dataset_name := "pets" |}.

(** The same settings pointing at another label file. *)
Definition other_config : Config :=
  {| model_name := "resnet"; model_requires_grad := false; num_classes := 2;
     model_weights := "DEFAULT"; image_size := 224; batch_size := 2;
     model_name_to_load := "best"; dataset_name := "birds" |}.

Definition pets_header : list string := ["path"; "cat"; "dog"].
Definition pets_rows : list (list string) := [["a.jpg"; "0"; "1"]; ["b.jpg"; "1"; "0"]].

(** A directory [photos] with one [.jpg] and one [.txt] file, a label
    file, a stray file, and (when [with_checkpoint]) the checkpoint. *)
Definition fs (with_checkpoint : bool) : FS :=
  {| fs_is_dir := fun p => existsb (String.eqb p) ["."; "photos"; "models"; "datasets"];
     fs_is_file := fun p =>
       existsb (String.eqb p) ["photos/a.jpg"; "photos/b.txt"; "datasets/pets.csv"; "notes.txt"]
       || (with_checkpoint && String.eqb p "models/best.pth");
     fs_listdir := fun p => if String.eqb p "photos" then ["a.jpg"; "b.txt"] else [];
     fs_csv := fun p =>
       if String.eqb p "datasets/pets.csv" then Some (pets_header, pets_rows) else None |}.

(** A freshly started process. *)
Definition state (with_checkpoint : bool) : State :=
  {| st_fs := fs with_checkpoint; st_cuda_available := false;
     st_dataset_csv := None; st_disk_reads := []; st_next_id := 0;
     st_random := [3; 1; 4]; st_torch_seed := 0; st_grad_enabled := true;
     st_forward_log := []; st_tb_closed := []; st_tb_events := [];
     st_stdout := []; st_log := []; st_saved := [] |}.

Definition pets_table : Table :=
  {| tbl_id := 0; tbl_columns := pets_header; tbl_rows := pets_rows |}.

(** An evaluator around the two-class model that scores everything 0, with
    the criterion [from_file] installs. *)
Definition evaluator : ModelEvaluator.t :=
  ModelEvaluator.__init__ (zero_model 2) Torch.BCEWithLogitsLoss cpu None config None.

Definition sample (pixel : R) (cat dog : bool) : Sample :=
  {| s_image := [pixel]; s_label := [cat; dog] |}.

(** Three samples in batches of two, shuffled. *)
Definition loader : DataLoader :=
  {| dl_dataset := {| ds_table := None;
                      ds_samples := [sample 1 false true; sample 2 true false;
                                     sample 3 true true] |};
     dl_batch_size := 2;
     dl_shuffle := true |}.

(** A data source without samples. *)
Definition empty_loader : DataLoader :=
  {| dl_dataset := {| ds_table := None; ds_samples := [] |};
     dl_batch_size := 2;
     dl_shuffle := false |}.

(** One batch of two samples, neither carrying a label. *)
Definition unlabelled_pair : DataLoader :=
  {| dl_dataset := {| ds_table := None;
                      ds_samples := [sample 1 false false; sample 2 false false] |};
     dl_batch_size := 2;
     dl_shuffle := false |}.

End Demo.

(** ** modelevaluator.py: the context manager and [evaluate_old] *)
Module ModelEvaluatorRest.
Section WithCollaborators.
Context `{Collaborators}.
(** [metricutils.f1_score(true_labels, predictions)] *)
Variable f1_score : BinMatrix -> BinMatrix -> R.

Import Torch ModelEvaluator.

(** [__enter__] *)
Definition __enter__ (self : ModelEvaluator.t) : M ModelEvaluator.t := ret self.

(** [with evaluator as e: body(e)].  [__exit__] returns [None], so an
    exception of the body is raised again after [__exit__] has run. *)
Definition with_evaluator {A} (self : ModelEvaluator.t)
  (body : ModelEvaluator.t -> M A) : M A :=
  e <- __enter__ self ;;
  fun s =>
    match body e s with
    | (Ok a, s1) =>
        match __exit__ self s1 with
        | (Ok _, s2) => (Ok a, s2)
        | (Raise x, s2) => (Raise x, s2)
        end
    | (Raise x, s1) =>
        match __exit__ self s1 with
        | (Ok _, s2) => (Raise x, s2)
        | (Raise x', s2) => (Raise x', s2)
        end
    end.

(** The loop body of [evaluate_old], for batch number [i]. *)
Definition evaluate_old_step (self : ModelEvaluator.t) (model : Model) (epoch : Z)
  (datasetSubset : string) (metricMode : option string) (threshold : option R)
  (random_batch_index : Z)
  (acc : list BinMatrix * list BinMatrix * R) (item : nat * Batch)
  : M (list BinMatrix * list BinMatrix * R) :=
  let '(all_preds, all_labels, total_loss) := acc in
  let '(i, batch) := item in
  let images := b_image batch in
  let labels := b_label batch in
  outputs <- forward model images ;;
  let loss := criterion self outputs (float_of_labels labels) in
  let total_loss := (total_loss + loss)%R in
  let predictions := MetricUtils.getpredictions_with_threshold outputs threshold in
  let all_preds := all_preds ++ [predictions] in
  let all_labels := all_labels ++ [labels] in
  match metricMode, tensorBoardWriter self with
  | Some metricMode, Some writer =>
      if (Z.of_nat i =? random_batch_index)%Z
      then TensorBoardWriter.write_image_test_results writer images labels predictions
             epoch metricMode datasetSubset
      else ret tt
  | _, _ => ret tt
  end ;;;
  ret (all_preds, all_labels, total_loss).

Fixpoint evaluate_old_loop (self : ModelEvaluator.t) (model : Model) (epoch : Z)
  (datasetSubset : string) (metricMode : option string) (threshold : option R)
  (random_batch_index : Z) (items : list (nat * Batch))
  (acc : list BinMatrix * list BinMatrix * R) : M (list BinMatrix * list BinMatrix * R) :=
  match items with
  | [] => ret acc
  | item :: rest =>
      acc' <- evaluate_old_step self model epoch datasetSubset metricMode threshold
                random_batch_index acc item ;;
      evaluate_old_loop self model epoch datasetSubset metricMode threshold
        random_batch_index rest acc'
  end.

(** [evaluate_old(self, data_loader, epoch, datasetSubset, metricMode=None,
      threshold=None)] *)
Definition evaluate_old (self : ModelEvaluator.t) (data_loader : DataLoader) (epoch : Z)
  (datasetSubset : string) (metricMode : option string) (threshold : option R)
  : M (R * R) :=
  let model := module_eval (model self) in
  let total_loss := 0%R in
  let all_preds := [] in
  let all_labels := [] in
  random_batch_index <- random_randint 0 (Z.of_nat (len_loader data_loader) - 1) ;;
  acc <- with_no_grad (
    batches <- iter_loader data_loader ;;
    evaluate_old_loop self model epoch datasetSubset metricMode threshold
      random_batch_index (DatasetUtils.enumerate batches)
      (all_preds, all_labels, total_loss)) ;;
  let '(all_preds, all_labels, total_loss) := acc in
  all_preds_binary <- np_vstack all_preds ;;
  all_labels_binary <- np_vstack all_labels ;;
  let f1 := f1_score all_labels_binary all_preds_binary in
  avg_loss <- py_truediv total_loss (length (ds_samples (dl_dataset data_loader))) ;;
  ret (avg_loss, f1).

End WithCollaborators.
End ModelEvaluatorRest.

(** ** More of the concrete world *)
Module DemoRest.

Definition writer : TensorBoardWriter.t :=
  {| TensorBoardWriter.tbw_id := 0; TensorBoardWriter.tbw_config := Demo.config |}.

(** An evaluator that logs to [writer]. *)
Definition logging_evaluator : ModelEvaluator.t :=
  ModelEvaluator.__init__ (Demo.zero_model 2) Torch.BCEWithLogitsLoss cpu (Some writer)
    Demo.config None.

(** An evaluator whose criterion sums the element losses. *)
Definition summing_evaluator : ModelEvaluator.t :=
  ModelEvaluator.__init__ (Demo.zero_model 2)
    (Torch.BCEWithLogitsLoss_with Torch.reduction_sum) cpu None Demo.config None.

(** Three samples in batches of two, in dataset order. *)
Definition ordered_loader : DataLoader :=
  {| dl_dataset := dl_dataset Demo.loader; dl_batch_size := 2; dl_shuffle := false |}.

(** A process that has loaded the label table already. *)
Definition warm_state : State := set_dataset_csv (Some Demo.pets_table) (Demo.state true).

Definition f1_score (labels predictions : BinMatrix) : R := 0%R.

End DemoRest.

(** ** What one call of [write_image_test_results] records *)
Module WriterEvents.
Section WithCollaborators.
Context `{Collaborators}.
Import TensorBoardWriter.

(** The four image streams of one call, most recent first. *)
Definition test_result_events (w : TensorBoardWriter.t) (images : list Image)
  (true_labels predictions : BinMatrix) (step : Z) (runmode dataSubset : string)
  (mapping : gmap nat string) : list TBEvent :=
  [AddImages (tbw_id w) (runmode +:+ "/" +:+ dataSubset +:+ "/OverlayPredictions")
     (overlay_predictions_batch (denormalize_images images (tbw_config w))
        predictions mapping true_labels) step;
   AddImages (tbw_id w) (runmode +:+ "/" +:+ dataSubset +:+ "/Predictions")
     (convert_labels_to_color predictions (num_classes (tbw_config w))) step;
   AddImages (tbw_id w) (runmode +:+ "/" +:+ dataSubset +:+ "/True Labels")
     (convert_labels_to_color true_labels (num_classes (tbw_config w))) step;
   AddImages (tbw_id w) (runmode +:+ "/" +:+ dataSubset +:+ "/Images")
     (denormalize_images images (tbw_config w)) step].

End WithCollaborators.
End WriterEvents.

(** * Properties *)

(** ** Facts about the monad *)

Lemma bind_ok {A B} (m : M A) (k : A -> M B) s a s' :
  m s = (Ok a, s') -> bind m k s = k a s'.
Proof. intros Hm. unfold bind. rewrite Hm. reflexivity. Qed.

Lemma bind_raise {A B} (m : M A) (k : A -> M B) s e s' :
  m s = (Raise e, s') -> bind m k s = (Raise e, s').
Proof. intros Hm. unfold bind. rewrite Hm. reflexivity. Qed.

Lemma set_dataset_csv_same s t :
  st_dataset_csv s = Some t -> set_dataset_csv (Some t) s = s.
Proof. destruct s; simpl; intros ->; reflexivity. Qed.

(** ** The dataset cache and the tag mapping *)
Module DatasetUtilsFacts.
Import DatasetUtils.
Section WithCollaborators.
Context `{Collaborators}.

Lemma fold_insert_enumerate (l : list string) :
  forall (k : nat) (m : gmap nat string) (i : nat),
    fold_left (fun m p => <[fst p := snd p]> m) (enumerate_from k l) m !! i
    = if decide (k <= i < k + length l) then l !! (i - k) else m !! i.
Proof.
  induction l as [|x l IH]; intros k m i; simpl.
  - destruct (decide (k <= i < k + 0)); [lia | reflexivity].
  - rewrite IH.
    destruct (decide (S k <= i < S k + length l)) as [Hin|Hout].
    + destruct (decide (k <= i < k + S (length l))); [|lia].
      replace (i - k) with (S (i - S k)) by lia. reflexivity.
    + destruct (decide (k <= i < k + S (length l))) as [Hin'|Hout'].
      * assert (i = k) as -> by lia.
        rewrite lookup_insert_eq. replace (k - k) with 0 by lia. reflexivity.
      * rewrite lookup_insert_ne by lia. reflexivity.
Qed.

(** Index [i] of the mapping holds the name of column [i + 1]. *)
Lemma index_to_tag_lookup (csv : Table) (i : nat) :
  __get_index_to_tag_mapping csv !! i = tbl_columns csv !! (i + 1).
Proof.
  unfold __get_index_to_tag_mapping, dict_of_pairs, enumerate.
  rewrite fold_insert_enumerate, lookup_empty.
  replace (i - 0) with i by lia.
  destruct (decide (0 <= i < 0 + length (skipn 1 (tbl_columns csv)))) as [Hin|Hout].
  - destruct (tbl_columns csv) as [|c cs]; simpl in *; [lia|].
    replace (i + 1) with (S i) by lia. reflexivity.
  - symmetry. apply lookup_ge_None.
    rewrite length_skipn in Hout. lia.
Qed.

Lemma index_to_tag_dom (csv : Table) :
  dom (__get_index_to_tag_mapping csv) = set_seq 0 (length (tbl_columns csv) - 1).
Proof.
  apply set_eq. intros i.
  rewrite elem_of_dom, elem_of_set_seq, index_to_tag_lookup, lookup_lt_is_Some.
  lia.
Qed.

(** Once the slot is filled, [__get_dataset_csv] returns its content and
    changes nothing, whatever the configuration. *)
Lemma get_dataset_csv_cached config s t :
  st_dataset_csv s = Some t -> __get_dataset_csv config s = (Ok t, s).
Proof.
  intros Hc. unfold __get_dataset_csv, bind, get. rewrite Hc. reflexivity.
Qed.

(** The first access reads the configured file once and fills the slot. *)
Lemma get_dataset_csv_first config s header rows :
  st_dataset_csv s = None ->
  fs_csv (st_fs s) (get_dataset_path config) = Some (header, rows) ->
  let t := {| tbl_id := st_next_id s; tbl_columns := header; tbl_rows := rows |} in
  exists s',
    __get_dataset_csv config s = (Ok t, s')
    /\ st_dataset_csv s' = Some t
    /\ st_disk_reads s' = get_dataset_path config :: st_disk_reads s
    /\ st_fs s' = st_fs s.
Proof.
  intros Hc Hfs t.
  eexists. split.
  - unfold __get_dataset_csv, bind, get, pd_read_csv, modify, ret.
    rewrite Hc, Hfs. reflexivity.
  - simpl. auto.
Qed.

Lemma run_entry_after_lookup c s t s1 :
  __get_dataset_csv (entry_config c) s = (Ok t, s1) ->
  st_dataset_csv s1 = Some t ->
  exists r, run_entry c s = (r, s1) /\ served_from t c r.
Proof.
  intros Hget Hc.
  destruct c as [config|mode config shuffle|config]; simpl in Hget;
    unfold run_entry, get_train_valid_test_loaders, get_data_loader_by_name,
      get_dataset_tag_mappings, bind; rewrite Hget;
    unfold modify, ret; rewrite (set_dataset_csv_same _ _ Hc).
  - unfold DataLoader_new, served_from; simpl.
    destruct (batch_size config) eqn:Hbs; simpl.
    + eexists; split; [reflexivity|]. right. split; [reflexivity|]. eauto.
    + eexists; split; [reflexivity|]. left. eexists; split; [reflexivity|].
      simpl. auto.
  - unfold DataLoader_new, served_from; simpl.
    destruct (batch_size config) eqn:Hbs; simpl.
    + eexists; split; [reflexivity|]. right. split; [reflexivity|]. eauto.
    + eexists; split; [reflexivity|]. left. eexists; split; [reflexivity|].
      simpl. auto.
  - eexists; split; [reflexivity|]. left. eexists; split; [reflexivity|].
    reflexivity.
Qed.

Lemma run_entry_cached c s t :
  st_dataset_csv s = Some t ->
  exists r, run_entry c s = (r, s) /\ served_from t c r.
Proof.
  intros Hc. apply run_entry_after_lookup; [|exact Hc].
  apply get_dataset_csv_cached, Hc.
Qed.

Lemma run_calls_cached cs : forall s t,
  st_dataset_csv s = Some t ->
  exists rs, run_calls cs s = (rs, s) /\ Forall2 (served_from t) cs rs.
Proof.
  induction cs as [|c cs IH]; intros s t Hc; simpl.
  - exists []. split; [reflexivity|constructor].
  - destruct (run_entry_cached c s t Hc) as (r & Hr & Hserved).
    destruct (IH s t Hc) as (rs & Hrs & Hall).
    rewrite Hr, Hrs. exists (r :: rs). split; [reflexivity|].
    constructor; assumption.
Qed.

End WithCollaborators.
End DatasetUtilsFacts.

Module DatasetCacheClaims.
Import DatasetUtils DatasetUtilsFacts.
Section WithCollaborators.
Context `{Collaborators}.

(** C4. When the label table the cache yields has [C >= 1] columns,
    [get_dataset_tag_mappings] returns a mapping whose domain is exactly
    [{0, ..., C-2}], whose size is [C-1], and which sends index [i] to the
    name of column [i+1] of the table, in file order. *)
Theorem tag_mappings_enumerate_columns (config : Config) (s : State) (t : Table) :
  fst (__get_dataset_csv config s) = Ok t ->
  1 <= length (tbl_columns t) ->
  exists (m : gmap nat string) (s' : State),
    get_dataset_tag_mappings config s = (Ok m, s')
    /\ dom m = set_seq 0 (length (tbl_columns t) - 1)
    /\ size m = length (tbl_columns t) - 1
    /\ forall i, i < length (tbl_columns t) - 1 ->
         exists name, m !! i = Some name /\ tbl_columns t !! (i + 1) = Some name.
Proof.
  intros Hget Hcols.
  destruct (__get_dataset_csv config s) as [r s1] eqn:Hrun.
  simpl in Hget. subst r.
  exists (__get_index_to_tag_mapping t). eexists.
  split; [|split; [|split]].
  - unfold get_dataset_tag_mappings, bind. rewrite Hrun. reflexivity.
  - apply index_to_tag_dom.
  - rewrite <- size_dom, index_to_tag_dom. apply size_set_seq.
  - intros i Hi.
    destruct (lookup_lt_is_Some_2 (tbl_columns t) (i + 1)) as [name Hname]; [lia|].
    exists name. split; [|exact Hname].
    rewrite index_to_tag_lookup. exact Hname.
Qed.

(** C5. Starting with an empty cache slot and a readable label file, a
    sequence of entry-point calls reads the file exactly once, at the first
    call; every call, whatever configuration it passes, is served from that
    one table object, which stays in the slot and is what any later lookup
    returns. *)
Theorem cache_reads_once_then_reuses (c0 : EntryCall) (cs : list EntryCall)
  (s : State) (header : list string) (rows : list (list string)) :
  st_dataset_csv s = None ->
  fs_csv (st_fs s) (get_dataset_path (entry_config c0)) = Some (header, rows) ->
  let t := {| tbl_id := st_next_id s; tbl_columns := header; tbl_rows := rows |} in
  exists r0 rs s',
    run_calls (c0 :: cs) s = (r0 :: rs, s')
    /\ st_disk_reads s' = get_dataset_path (entry_config c0) :: st_disk_reads s
    /\ st_dataset_csv s' = Some t
    /\ served_from t c0 r0
    /\ Forall2 (served_from t) cs rs
    /\ forall config, __get_dataset_csv config s' = (Ok t, s').
Proof.
  intros Hnone Hfile t.
  destruct (get_dataset_csv_first _ s header rows Hnone Hfile)
    as (s1 & Hget & Hslot & Hreads & _).
  destruct (run_entry_after_lookup c0 s t s1 Hget Hslot) as (r0 & Hr0 & Hserved0).
  destruct (run_calls_cached cs s1 t Hslot) as (rs & Hrs & Hserved).
  exists r0, rs, s1.
  split; [|split; [|split; [|split; [|split]]]]; auto.
  - simpl. rewrite Hr0, Hrs. reflexivity.
  - intros config. apply get_dataset_csv_cached, Hslot.
Qed.

End WithCollaborators.

#[local] Existing Instance Demo.collaborators.

(** C4 on the table with columns [path, cat, dog]. *)
Lemma tag_mappings_enumerate_columns_witness :
  exists (m : gmap nat string) (s' : State),
    get_dataset_tag_mappings Demo.config (Demo.state true) = (Ok m, s')
    /\ dom m = set_seq 0 (3 - 1)
    /\ size m = 3 - 1
    /\ forall i, i < 3 - 1 ->
         exists name, m !! i = Some name /\ Demo.pets_header !! (i + 1) = Some name.
Proof.
  apply (tag_mappings_enumerate_columns Demo.config (Demo.state true) Demo.pets_table).
  - reflexivity.
  - simpl. lia.
Defined.

(** C5 on three calls, the later ones with a configuration naming another
    label file. *)
Lemma cache_reads_once_then_reuses_witness :
  exists r0 rs s',
    run_calls [CallTagMappings Demo.config;
               CallLoaderByName "test" Demo.other_config false;
               CallTagMappings Demo.other_config] (Demo.state true) = (r0 :: rs, s')
    /\ st_disk_reads s' = ["datasets/pets.csv"]
    /\ st_dataset_csv s' = Some Demo.pets_table
    /\ served_from Demo.pets_table (CallTagMappings Demo.config) r0
    /\ Forall2 (served_from Demo.pets_table)
         [CallLoaderByName "test" Demo.other_config false;
          CallTagMappings Demo.other_config] rs
    /\ forall config, __get_dataset_csv config s' = (Ok Demo.pets_table, s').
Proof.
  exact (cache_reads_once_then_reuses (CallTagMappings Demo.config)
           [CallLoaderByName "test" Demo.other_config false;
            CallTagMappings Demo.other_config]
           (Demo.state true) Demo.pets_header Demo.pets_rows eq_refl eq_refl).
Defined.

End DatasetCacheClaims.

(** ** Iterating a loader *)
Module TorchFacts.
Import Torch.
Section WithCollaborators.
Context `{Collaborators}.

Lemma chunks_fuel_nil {A} fuel n : chunks_fuel fuel n (@nil A) = [].
Proof. destruct fuel; reflexivity. Qed.

(** With a positive batch size the batches partition the samples. *)
Lemma concat_chunks_fuel {A} n : 1 <= n ->
  forall fuel (l : list A), length l <= fuel -> concat (chunks_fuel fuel n l) = l.
Proof.
  intros Hn. induction fuel as [|fuel IH]; intros l Hlen.
  - destruct l; [reflexivity | simpl in Hlen; lia].
  - destruct l as [|x l]; [reflexivity|].
    change (chunks_fuel (S fuel) n (x :: l))
      with (firstn n (x :: l) :: chunks_fuel fuel n (skipn n (x :: l))).
    simpl concat. rewrite IH.
    + apply firstn_skipn.
    + rewrite length_skipn. simpl in *. lia.
Qed.

Lemma concat_chunks {A} n (l : list A) : 1 <= n -> concat (chunks n l) = l.
Proof. intros Hn. apply concat_chunks_fuel; [exact Hn | reflexivity]. Qed.

Lemma chunks_nonempty {A} n (l : list A) : l <> [] -> chunks n l <> [].
Proof. destruct l; [congruence|]. intros _. unfold chunks. simpl. discriminate. Qed.

(** Every batch before an existing batch is full. *)
Lemma chunks_fuel_full_before {A} n : forall fuel (l : list A) k k' c c',
  chunks_fuel fuel n l !! k = Some c ->
  k' < k ->
  chunks_fuel fuel n l !! k' = Some c' ->
  length c' = n.
Proof.
  induction fuel as [|fuel IH]; intros l k k' c c' Hk Hlt Hk'.
  - discriminate.
  - destruct l as [|x l]; [discriminate|].
    change (chunks_fuel (S fuel) n (x :: l))
      with (firstn n (x :: l) :: chunks_fuel fuel n (skipn n (x :: l))) in Hk, Hk'.
    destruct k as [|k]; [lia|]. simpl in Hk.
    destruct k' as [|k'].
    + simpl in Hk'. injection Hk' as <-.
      destruct (skipn n (x :: l)) as [|y rest] eqn:Hskip.
      * rewrite chunks_fuel_nil in Hk. discriminate.
      * assert (Hl : length (skipn n (x :: l)) = S (length rest))
          by (rewrite Hskip; reflexivity).
        rewrite length_skipn in Hl. rewrite length_firstn. lia.
    + simpl in Hk'. eapply (IH _ k k'); eauto. lia.
Qed.

(** Row [k * n + j] of a concatenation whose first [k] blocks have [n] rows. *)
Lemma concat_lookup_full {B} n : forall (ls : list (list B)) k c j,
  ls !! k = Some c ->
  j < length c ->
  (forall k' c', k' < k -> ls !! k' = Some c' -> length c' = n) ->
  concat ls !! (k * n + j) = c !! j.
Proof.
  induction ls as [|c0 ls IH]; intros k c j Hk Hj Hfull; [discriminate|].
  destruct k as [|k]; simpl in Hk.
  - injection Hk as ->. simpl. apply lookup_app_l. exact Hj.
  - assert (Hc0 : length c0 = n) by (apply (Hfull 0 c0); [lia | reflexivity]).
    simpl concat. rewrite lookup_app_r by lia.
    replace (S k * n + j - length c0) with (k * n + j) by lia.
    apply IH; auto.
    intros k' c' Hlt Hk'. apply (Hfull (S k') c'); [lia | exact Hk'].
Qed.

Lemma length_concat_map {A B} (f : list A -> list B) (ls : list (list A)) :
  (forall l, length (f l) = length l) ->
  length (concat (map f ls)) = length (concat ls).
Proof.
  intros Hf. induction ls as [|l ls IH]; [reflexivity|].
  simpl. rewrite !length_app, Hf, IH. reflexivity.
Qed.

Lemma select_samples_seq (samples : list Sample) :
  forall pre, select_samples (pre ++ samples) (seq (length pre) (length samples)) = samples.
Proof.
  unfold select_samples. induction samples as [|x samples IH]; intros pre; [reflexivity|].
  simpl. rewrite lookup_app_r by lia. replace (length pre - length pre) with 0 by lia.
  simpl. f_equal.
  specialize (IH (pre ++ [x])). rewrite length_app in IH. simpl in IH.
  replace (length pre + 1) with (S (length pre)) in IH by lia.
  rewrite <- app_assoc in IH. exact IH.
Qed.

(** One pass visits every sample of the dataset exactly once; without
    shuffling, in dataset order. *)
Lemma iter_samples_spec (dl : DataLoader) (s : State) :
  exists samples s0,
    iter_samples dl s = (Ok samples, s0)
    /\ Permutation samples (ds_samples (dl_dataset dl))
    /\ (dl_shuffle dl = false -> samples = ds_samples (dl_dataset dl) /\ s0 = s)
    /\ (forall v, iter_samples dl (set_grad_enabled v s) = (Ok samples, set_grad_enabled v s0))
    /\ st_forward_log s0 = st_forward_log s
    /\ st_grad_enabled s0 = st_grad_enabled s.
Proof.
  unfold iter_samples, sampler_order, bind, get, modify, ret.
  destruct (dl_shuffle dl) eqn:Hsh; simpl.
  - eexists. eexists. split; [reflexivity|].
    split; [|split; [discriminate|split; [|split]; intros; reflexivity]].
    unfold select_samples.
    rewrite (randperm_perm (st_torch_seed s) (length (ds_samples (dl_dataset dl)))).
    pose proof (select_samples_seq (ds_samples (dl_dataset dl)) []) as Hseq.
    unfold select_samples in Hseq. simpl in Hseq. rewrite Hseq. reflexivity.
  - eexists. eexists. split; [reflexivity|].
    pose proof (select_samples_seq (ds_samples (dl_dataset dl)) []) as Hseq.
    simpl in Hseq. rewrite Hseq.
    split; [reflexivity|]. split; [auto|]. split; [|split]; intros; reflexivity.
Qed.

End WithCollaborators.
End TorchFacts.

(** ** The evaluator *)
Module ModelEvaluatorFacts.
Import Torch TorchFacts ModelEvaluator.
Section WithCollaborators.
Context `{Collaborators}.

Lemma set_forward_log_same s : set_forward_log (st_forward_log s) s = s.
Proof. destruct s; reflexivity. Qed.

(** The loop over the batches: outputs and labels are appended in batch
    order, the criterion's values are added up, and every forward pass is
    logged under the gradient mode in force. *)
Lemma predict_loop_spec (self : t) (chs : list (list Sample)) :
  forall (P : list Matrix) (T : list BinMatrix) (L : R) (s : State),
    predict_loop self (module_eval (model self)) (map collate chs) (P, T, L) s
    = (Ok (P ++ map (chunk_scores self) chs,
           T ++ map (map s_label) chs,
           accumulated_loss self chs L),
       set_forward_log
         (rev (map (fun c : list Sample => (length c, st_grad_enabled s)) chs)
          ++ st_forward_log s) s).
Proof.
  induction chs as [|c chs IH]; intros P T L s.
  - simpl. rewrite !app_nil_r, set_forward_log_same. reflexivity.
  - simpl map. simpl predict_loop.
    unfold bind at 1, predict_step, forward, bind, get, modify, ret. simpl.
    rewrite IH. simpl.
    rewrite <- !app_assoc. simpl. rewrite length_map. reflexivity.
Qed.

(** [predict] on a loader with a positive batch size over a non-empty
    dataset returns; its results in terms of the visiting order. *)
Lemma predict_returns (self : t) (dl : DataLoader) (s : State) :
  1 <= dl_batch_size dl ->
  ds_samples (dl_dataset dl) <> [] ->
  exists samples s0 s',
    iter_samples dl s = (Ok samples, s0)
    /\ Permutation samples (ds_samples (dl_dataset dl))
    /\ (dl_shuffle dl = false -> samples = ds_samples (dl_dataset dl))
    /\ predict self dl s
       = (Ok (concat (map (chunk_scores self) (chunks (dl_batch_size dl) samples)),
              map s_label samples,
              (accumulated_loss self (chunks (dl_batch_size dl) samples) 0
               / INR (length (ds_samples (dl_dataset dl))))%R),
          s')
    /\ st_forward_log s'
       = rev (map (fun c : list Sample => (length c, false))
                (chunks (dl_batch_size dl) samples)) ++ st_forward_log s
    /\ st_grad_enabled s' = st_grad_enabled s.
Proof.
  intros Hbs Hne.
  destruct (iter_samples_spec dl s)
    as (samples & s0 & Hiter & Hperm & Hseq & Hgrad & Hlog & Hmode).
  exists samples, s0.
  exists (set_grad_enabled (st_grad_enabled s)
            (set_forward_log
               (rev (map (fun c : list Sample => (length c, false))
                       (chunks (dl_batch_size dl) samples)) ++ st_forward_log s0)
               (set_grad_enabled false s0))).
  split; [exact Hiter|]. split; [exact Hperm|].
  split; [intros Hsh; apply Hseq, Hsh|].
  assert (Hsamples : samples <> []).
  { intros ->. apply Permutation_nil in Hperm. auto. }
  pose proof (chunks_nonempty (dl_batch_size dl) samples Hsamples) as Hchunks.
  assert (Hloader : iter_loader dl (set_grad_enabled false s)
                    = (Ok (map collate (chunks (dl_batch_size dl) samples)),
                       set_grad_enabled false s0)).
  { unfold iter_loader. rewrite (bind_ok _ _ _ _ _ (Hgrad false)). reflexivity. }
  unfold predict.
  erewrite bind_ok.
  2:{ unfold with_no_grad. rewrite (bind_ok _ _ _ _ _ Hloader), predict_loop_spec.
      reflexivity. }
  simpl app.
  destruct (chunks (dl_batch_size dl) samples) as [|c chs] eqn:Hch; [congruence|].
  destruct (ds_samples (dl_dataset dl)) as [|x xs] eqn:Hds; [congruence|].
  unfold bind, np_vstack, py_truediv. cbn [app map length]. unfold ret.
  split; [|split].
  - apply f_equal2; [|reflexivity]. do 3 f_equal.
    change (map s_label c :: map (map s_label) chs) with (map (map s_label) (c :: chs)).
    rewrite <- Hch, <- concat_map, concat_chunks by exact Hbs. reflexivity.
  - cbn [st_forward_log set_grad_enabled set_forward_log]. rewrite Hlog. reflexivity.
  - reflexivity.
Qed.

(** On a dataset without samples the loop never runs and [np.vstack]
    refuses the empty list of outputs. *)
Lemma predict_empty_raises (self : t) (dl : DataLoader) (s : State) :
  ds_samples (dl_dataset dl) = [] ->
  exists s',
    predict self dl s = (Raise (ValueError "need at least one array to concatenate"), s')
    /\ st_forward_log s' = st_forward_log s.
Proof.
  intros Hempty.
  destruct (iter_samples_spec dl s)
    as (samples & s0 & Hiter & Hperm & Hseq & Hgrad & Hlog & Hmode).
  rewrite Hempty in Hperm. apply Permutation_sym, Permutation_nil in Hperm.
  subst samples.
  assert (Hloader : iter_loader dl (set_grad_enabled false s)
                    = (Ok [], set_grad_enabled false s0)).
  { unfold iter_loader. rewrite (bind_ok _ _ _ _ _ (Hgrad false)). reflexivity. }
  eexists. split.
  - unfold predict. erewrite bind_ok.
    2:{ unfold with_no_grad. rewrite (bind_ok _ _ _ _ _ Hloader). reflexivity. }
    reflexivity.
  - simpl. exact Hlog.
Qed.

End WithCollaborators.
End ModelEvaluatorFacts.

Module EvaluatorClaims.
Import Torch TorchFacts ModelEvaluator ModelEvaluatorFacts.
Section WithCollaborators.
Context `{Collaborators}.

Lemma lookup_map {A B} (f : A -> B) (l : list A) (k : nat) :
  map f l !! k = f <$> (l !! k).
Proof.
  revert k. induction l as [|x l IH]; intros [|k]; simpl; auto.
Qed.

(** C2. For every data source (with torch's positive batch size, and a
    model that returns one score row per image), whatever [predict] returns
    has these properties: both matrices have as many rows as the dataset
    has samples; the rows follow the order in which the pass visits the
    samples; and the sample at position [j] of batch [k] owns row
    [k * batch_size + j] of both matrices: that row of the labels is its
    label, that row of the scores is the row the model gave it.  [predict]
    does return for every data source that holds a sample; on a data
    source without samples it raises, as [np.vstack] has nothing to stack. *)
Theorem predict_rows_follow_iteration (self : t) (dl : DataLoader) (s : State) :
  1 <= dl_batch_size dl ->
  (forall images, length (m_forward (model self) false images) = length images) ->
  exists samples s0,
    iter_samples dl s = (Ok samples, s0)
    /\ Permutation samples (ds_samples (dl_dataset dl))
    /\ (dl_shuffle dl = false -> samples = ds_samples (dl_dataset dl))
    /\ ((ds_samples (dl_dataset dl) = []
         /\ exists s',
              predict self dl s
              = (Raise (ValueError "need at least one array to concatenate"), s'))
        \/ (ds_samples (dl_dataset dl) <> []
            /\ exists scores labels avg_loss s',
                 predict self dl s = (Ok (scores, labels, avg_loss), s')
                 /\ length scores = length (ds_samples (dl_dataset dl))
                 /\ length labels = length (ds_samples (dl_dataset dl))
                 /\ labels = map s_label samples
                 /\ scores = concat (map (chunk_scores self)
                                       (chunks (dl_batch_size dl) samples))
                 /\ forall k j chunk sample,
                      chunks (dl_batch_size dl) samples !! k = Some chunk ->
                      chunk !! j = Some sample ->
                      samples !! (k * dl_batch_size dl + j) = Some sample
                      /\ labels !! (k * dl_batch_size dl + j) = Some (s_label sample)
                      /\ scores !! (k * dl_batch_size dl + j)
                         = chunk_scores self chunk !! j)).
Proof.
  intros Hbs Hshape.
  destruct (ds_samples (dl_dataset dl)) as [|x0 xs0] eqn:Hds.
  { destruct (iter_samples_spec dl s) as (samples & s0 & Hiter & Hperm & Hseq & _).
    destruct (predict_empty_raises self dl s Hds) as (s' & Hraise & _).
    rewrite Hds in Hperm, Hseq.
    exists samples, s0. split; [exact Hiter|]. split; [exact Hperm|].
    split; [intros Hsh; apply Hseq, Hsh|].
    left. split; [reflexivity|]. exists s'. exact Hraise. }
  assert (Hne : ds_samples (dl_dataset dl) <> []) by (rewrite Hds; discriminate).
  destruct (predict_returns self dl s Hbs Hne)
    as (samples & s0 & s' & Hiter & Hperm & Hseq & Hpredict & _ & _).
  rewrite Hds in Hperm, Hseq, Hpredict.
  assert (Hscores : forall c, length (chunk_scores self c) = length c).
  { intros c. unfold chunk_scores. rewrite Hshape. apply length_map. }
  exists samples, s0.
  split; [exact Hiter|]. split; [exact Hperm|]. split; [exact Hseq|].
  right. split; [discriminate|].
  do 3 eexists. exists s'.
  split; [exact Hpredict|].
  split; [|split; [|split; [reflexivity|split; [reflexivity|]]]].
  - rewrite (length_concat_map _ _ Hscores), concat_chunks by exact Hbs.
    apply Permutation_length, Hperm.
  - rewrite length_map. apply Permutation_length, Hperm.
  - intros k j chunk sample Hk Hj.
    assert (Hfull : forall k' c', k' < k ->
              chunks (dl_batch_size dl) samples !! k' = Some c' ->
              length c' = dl_batch_size dl).
    { intros k' c' Hlt Hk'.
      exact (chunks_fuel_full_before _ _ _ k k' chunk c' Hk Hlt Hk'). }
    assert (Hjlt : j < length chunk) by (eapply lookup_lt_Some; eauto).
    assert (Hpos : samples !! (k * dl_batch_size dl + j) = Some sample).
    { rewrite <- (concat_chunks (dl_batch_size dl) samples Hbs) at 1.
      rewrite (concat_lookup_full _ _ k chunk j Hk Hjlt Hfull). exact Hj. }
    split; [exact Hpos|]. split.
    + pose proof (lookup_map s_label samples (k * dl_batch_size dl + j)) as Hl.
      rewrite Hpos in Hl. exact Hl.
    + apply concat_lookup_full.
      * pose proof (lookup_map (chunk_scores self)
                      (chunks (dl_batch_size dl) samples) k) as Hl.
        rewrite Hk in Hl. exact Hl.
      * rewrite Hscores. exact Hjlt.
      * intros k' c' Hlt Hk'. rewrite lookup_map in Hk'.
        destruct (chunks (dl_batch_size dl) samples !! k') as [c0|] eqn:Hc0;
          [|discriminate].
        injection Hk' as <-. rewrite Hscores. eapply Hfull; eauto.
Qed.

(** C3. For every data source and all arguments, [evaluate] is [predict]
    followed by [evaluate_predictions] on [predict]'s outputs with the same
    arguments: the same result (avg_loss, f1, precision, recall), the same
    final state, and the same exception when either step raises. *)
Theorem evaluate_is_predict_then_evaluate_predictions
  (self : t) (dl : DataLoader) (epoch : Z) (datasetSubset : string)
  (metricMode average : option string) (threshold : option R) (s : State) :
  evaluate self dl epoch datasetSubset metricMode average threshold s
  = evaluate_composed self dl epoch datasetSubset metricMode average threshold s.
Proof.
  unfold evaluate, evaluate_composed, bind at 1.
  destruct (predict self dl s) as [[[[scores labels] avg_loss]|e] s1]; [|reflexivity].
  unfold bind.
  destruct (evaluate_predictions self dl scores labels epoch datasetSubset average
              metricMode threshold s1) as [[[[f1 precision] recall]|e] s2];
    reflexivity.
Qed.

(** C6. [from_file] tests the checkpoint path resolved from the global
    configuration.  When the path does not exist it raises [ValueError]
    with a message that contains the path, after logging the error; when it
    exists it returns an evaluator carrying the model after [load_model] and
    the epoch count [load_model] reports.  In both cases no batch has been
    run through a model when it ends. *)
Theorem from_file_checkpoint_guard (config : Config) (dev : Device)
  (writer : option TensorBoardWriter.t) (thisconfig : Config) (s : State) :
  let path := get_model_to_load_path config in
  let created :=
    module_to (create_model (model_name config) (model_requires_grad config)
                 (num_classes config) (model_weights config)) dev in
  from_file config dev writer thisconfig s
  = (if os_path_exists (st_fs s) path
     then (Ok {| model := fst (load_model (st_fs s) path created);
                 self_config := config;
                 criterion := BCEWithLogitsLoss;
                 device := dev;
                 self_num_classes := num_classes config;
                 tensorBoardWriter := writer;
                 epochs := Some (snd (load_model (st_fs s) path created)) |},
           set_log ((INFO, "Loading the best model...") :: st_log s) s)
     else (Raise (ValueError (missing_model_message path)),
           set_log ((ERROR, "Could not find a model at path: " +:+ path) :: st_log s) s))
  /\ (exists rest,
        missing_model_message path
        = "Could not find a model at path: " +:+ path +:+ rest)
  /\ st_forward_log (snd (from_file config dev writer thisconfig s)) = st_forward_log s.
Proof.
  intros path created.
  assert (Heq : from_file config dev writer thisconfig s
    = (if os_path_exists (st_fs s) path
       then (Ok {| model := fst (load_model (st_fs s) path created);
                   self_config := config;
                   criterion := BCEWithLogitsLoss;
                   device := dev;
                   self_num_classes := num_classes config;
                   tensorBoardWriter := writer;
                   epochs := Some (snd (load_model (st_fs s) path created)) |},
             set_log ((INFO, "Loading the best model...") :: st_log s) s)
       else (Raise (ValueError (missing_model_message path)),
             set_log ((ERROR, "Could not find a model at path: " +:+ path)
                      :: st_log s) s))).
  { unfold from_file, bind, get, logger_info, logger_error, modify, ret, raise.
    fold path. fold created.
    destruct (os_path_exists (st_fs s) path); reflexivity. }
  split; [exact Heq|]. split.
  - eexists. reflexivity.
  - rewrite Heq. destruct (os_path_exists (st_fs s) path); reflexivity.
Qed.

(** C10. [from_file] ignores its [thisconfig] argument: for any two
    arguments, with the global configuration, device, writer and state
    fixed, the call yields the same result and the same final state. *)
Theorem from_file_ignores_thisconfig (config : Config) (dev : Device)
  (writer : option TensorBoardWriter.t) (thisconfig1 thisconfig2 : Config) (s : State) :
  from_file config dev writer thisconfig1 s = from_file config dev writer thisconfig2 s.
Proof. reflexivity. Qed.

(** C7. Binarization is sigmoid-then-compare against one scalar threshold:
    for thresholds [0 <= t1 <= t2 <= 1], a score predicted negative at [t1]
    is predicted negative at [t2]; every entry of the binarized matrix is
    the binarization of the entry of the score matrix at the same position
    under the same threshold; and [evaluate_predictions] computes its
    metrics from exactly that matrix. *)
Theorem binarization_monotone_and_uniform (x t1 t2 : R) :
  (0 <= t1)%R -> (t1 <= t2)%R -> (t2 <= 1)%R ->
  (MetricUtils.binarize t1 x = false -> MetricUtils.binarize t2 x = false)
  /\ (forall (outputs : Matrix) (t : R) (i j : nat),
        (MetricUtils.getpredictions_with_threshold outputs (Some t) !! i)
          ≫= (fun row => row !! j)
        = MetricUtils.binarize t <$> ((outputs !! i) ≫= (fun row => row !! j)))
  /\ (forall self dl (outputs : Matrix) (labels : BinMatrix) epoch datasetSubset
             average threshold s,
        evaluate_predictions self dl outputs labels epoch datasetSubset average
          None threshold s
        = (Ok (let '(precision, recall, f1) :=
                 compute_metrics labels
                   (MetricUtils.getpredictions_with_threshold outputs threshold)
                   threshold average in
               (f1, precision, recall)), s)).
Proof.
  intros H0 H12 H1. split; [|split].
  - unfold MetricUtils.binarize.
    destruct (Rlt_dec t1 (sigmoid x)) as [Hlt|Hge]; [discriminate|].
    intros _. destruct (Rlt_dec t2 (sigmoid x)) as [Hlt2|Hge2]; [|reflexivity].
    exfalso. apply Hge. lra.
  - intros outputs t. unfold MetricUtils.getpredictions_with_threshold.
    induction outputs as [|row outputs IH]; intros [|i] j; simpl; try reflexivity.
    + apply lookup_map.
    + apply IH.
  - intros. unfold evaluate_predictions.
    destruct (compute_metrics labels
                (MetricUtils.getpredictions_with_threshold outputs threshold)
                threshold average) as [[precision recall] f1].
    reflexivity.
Qed.

End WithCollaborators.

#[local] Existing Instance Demo.collaborators.

Lemma bce_with_logits_zero : bce_with_logits 0 0 = ln 2.
Proof.
  unfold bce_with_logits, sigmoid.
  rewrite Ropp_0, exp_0.
  replace (1 - 1 / (1 + 1))%R with (/ 2)%R by lra.
  rewrite ln_Rinv by lra. lra.
Qed.

Lemma ln_2_pos : (0 < ln 2)%R.
Proof. rewrite <- ln_1. apply ln_increasing; lra. Qed.

(** C1, on the evaluator [from_file] builds and one batch of two samples
    whose four scores are 0 and whose four targets are 0.  Every element
    loss is [ln 2], so the reduction-sum loss of the batch is [4 * ln 2]
    and its quotient by the sample count is [2 * ln 2]; [predict] returns
    [ln 2 / 2], because the criterion [from_file] installs reduces by the
    mean. *)
Theorem predict_avg_loss_is_mean_reduced :
  exists ev s1 scores labels s2,
    from_file Demo.config cpu None Demo.config (Demo.state true) = (Ok ev, s1)
    /\ predict ev Demo.unlabelled_pair s1 = (Ok (scores, labels, (ln 2 / 2)%R), s2)
    /\ (BCEWithLogitsLoss_with reduction_sum scores (float_of_labels labels)
         / INR (length (ds_samples (dl_dataset Demo.unlabelled_pair))))%R
        = (2 * ln 2)%R
    /\ (ln 2 / 2)%R <> (2 * ln 2)%R
    /\ st_forward_log s2 = [(2, false)].
Proof.
  exists (__init__ (Demo.zero_model 2) BCEWithLogitsLoss cpu None Demo.config (Some 7%Z)).
  exists (set_log [(INFO, "Loading the best model...")] (Demo.state true)).
  exists [[0; 0]; [0; 0]]%R, [[false; false]; [false; false]].
  eexists.
  split; [reflexivity|]. split; [|split; [|split]].
  - cbv -[Rplus Rmult Rdiv Rinv Ropp Rminus INR IZR exp ln bce_with_logits].
    rewrite !bce_with_logits_zero.
    apply f_equal2; [|reflexivity]. do 2 f_equal. simpl INR. lra.
  - cbv -[Rplus Rmult Rdiv Rinv Ropp Rminus INR IZR exp ln bce_with_logits].
    rewrite !bce_with_logits_zero. simpl INR. lra.
  - pose proof ln_2_pos. lra.
  - reflexivity.
Qed.

(** C2 on three shuffled samples in batches of two. *)
Lemma predict_rows_follow_iteration_witness :
  exists samples s0,
    iter_samples Demo.loader (Demo.state true) = (Ok samples, s0)
    /\ Permutation samples (ds_samples (dl_dataset Demo.loader))
    /\ (dl_shuffle Demo.loader = false -> samples = ds_samples (dl_dataset Demo.loader))
    /\ ((ds_samples (dl_dataset Demo.loader) = []
         /\ exists s',
              predict Demo.evaluator Demo.loader (Demo.state true)
              = (Raise (ValueError "need at least one array to concatenate"), s'))
        \/ (ds_samples (dl_dataset Demo.loader) <> []
            /\ exists scores labels avg_loss s',
                 predict Demo.evaluator Demo.loader (Demo.state true)
                 = (Ok (scores, labels, avg_loss), s')
                 /\ length scores = 3
                 /\ length labels = 3
                 /\ labels = map s_label samples
                 /\ scores = concat (map (chunk_scores Demo.evaluator) (chunks 2 samples))
                 /\ forall k j chunk sample,
                      chunks 2 samples !! k = Some chunk ->
                      chunk !! j = Some sample ->
                      samples !! (k * 2 + j) = Some sample
                      /\ labels !! (k * 2 + j) = Some (s_label sample)
                      /\ scores !! (k * 2 + j) = chunk_scores Demo.evaluator chunk !! j)).
Proof.
  apply (predict_rows_follow_iteration Demo.evaluator Demo.loader (Demo.state true)).
  - simpl. lia.
  - intros images. simpl. apply length_map.
Defined.

(** The rows [predict] returns on the three shuffled samples: the pass
    visits them in the sampler's order (here reversed). *)
Example predict_shuffled_labels :
  exists scores avg_loss s',
    predict Demo.evaluator Demo.loader (Demo.state true)
    = (Ok (scores, [[true; true]; [true; false]; [false; true]], avg_loss), s').
Proof. do 3 eexists. reflexivity. Qed.

(** A data source without samples. *)
Example predict_empty_source :
  fst (predict Demo.evaluator Demo.empty_loader (Demo.state true))
  = Raise (ValueError "need at least one array to concatenate").
Proof. reflexivity. Qed.

(** C7 at score 0 ([sigmoid 0 = 1/2]) and thresholds 0.5 and 0.9. *)
Lemma binarization_monotone_and_uniform_witness :
  (MetricUtils.binarize (1 / 2) 0 = false -> MetricUtils.binarize (9 / 10) 0 = false)
  /\ (forall (outputs : Matrix) (t : R) (i j : nat),
        (MetricUtils.getpredictions_with_threshold outputs (Some t) !! i)
          ≫= (fun row => row !! j)
        = MetricUtils.binarize t <$> ((outputs !! i) ≫= (fun row => row !! j)))
  /\ (forall self dl (outputs : Matrix) (labels : BinMatrix) epoch datasetSubset
             average threshold s,
        evaluate_predictions self dl outputs labels epoch datasetSubset average
          None threshold s
        = (Ok (let '(precision, recall, f1) :=
                 compute_metrics labels
                   (MetricUtils.getpredictions_with_threshold outputs threshold)
                   threshold average in
               (f1, precision, recall)), s)).
Proof.
  apply (binarization_monotone_and_uniform 0 (1 / 2) (9 / 10)); lra.
Defined.

End EvaluatorClaims.

(** ** The inference driver *)
Module InferenceClaims.
Import ModelEvaluator Inference.
Section WithCollaborators.
Context `{Collaborators}.

(** With the checkpoint in place [from_file] returns, touching only the log. *)
Lemma from_file_found (config : Config) (dev : Device)
  (writer : option TensorBoardWriter.t) (thisconfig : Config) (s : State) :
  os_path_exists (st_fs s) (get_model_to_load_path config) = true ->
  exists ev,
    from_file config dev writer thisconfig s
    = (Ok ev, set_log ((INFO, "Loading the best model...") :: st_log s) s).
Proof.
  intros Hex. eexists.
  unfold from_file, bind, get, logger_info, modify, ret. rewrite Hex. reflexivity.
Qed.


End WithCollaborators.

#[local] Existing Instance Demo.collaborators.

(** C8, on a directory holding [a.jpg] and [b.txt], with the checkpoint in
    place.  The driver lists exactly [photos/a.jpg]; it then calls
    [predict] with three positional arguments, which the one-parameter
    signature rejects with a [TypeError], so no batch is run and no image
    is saved. *)
Theorem main_directory_raises_type_error :
  let args := {| input_path := "photos"; output_folder := None; time_interval := 2 |} in
  list_image_paths (Demo.fs true) "photos" = ["photos/a.jpg"]
  /\ fst (main Demo.config args (Demo.state true))
     = Raise (TypeError "predict() takes 2 positional arguments but 4 were given")
  /\ st_saved (snd (main Demo.config args (Demo.state true))) = []
  /\ st_forward_log (snd (main Demo.config args (Demo.state true))) = [].
Proof. repeat split; reflexivity. Qed.


(** The driver tests the path pathlib makes of its argument, not the text
    typed: with the checkpoint in place, [photos/a.jpg/] is the image file
    [photos/a.jpg] and the empty text is the directory [.], so both raise,
    while [nowhere/] is reported under the name [nowhere]. *)
Example main_normalises_input_path :
  let run text :=
    main Demo.config {| input_path := text; output_folder := Some "out";
                        time_interval := 2 |} (Demo.state true) in
  map Path [""; "photos/a.jpg/"; "nowhere/"; "a//b/./c"] = ["."; "photos/a.jpg"; "nowhere"; "a/b/c"]
  /\ fst (run "photos/a.jpg/")
     = Raise (AttributeError
                "'ModelEvaluator' object has no attribute 'single_image_prediction'")
  /\ fst (run "")
     = Raise (TypeError "predict() takes 2 positional arguments but 4 were given")
  /\ fst (run "nowhere/") = Ok tt
  /\ st_stdout (snd (run "nowhere/")) = ["Invalid input path: nowhere"].
Proof. repeat split; reflexivity. Qed.


End InferenceClaims.

(** ** Further properties of the dataset cache and the writer *)
Module CacheAndWriterProperties.
Import DatasetUtils DatasetUtilsFacts TensorBoardWriter.
Section WithCollaborators.
Context `{Collaborators}.

(** A lookup that returns a table leaves it in the slot and touches
    neither the writers nor their events. *)
Lemma get_dataset_csv_ok_inv config s t s1 :
  __get_dataset_csv config s = (Ok t, s1) ->
  st_dataset_csv s1 = Some t
  /\ st_tb_closed s1 = st_tb_closed s
  /\ st_tb_events s1 = st_tb_events s.
Proof.
  unfold __get_dataset_csv, bind, get, pd_read_csv, modify, ret.
  destruct (st_dataset_csv s) as [t0|] eqn:Hslot.
  - intros Heq. injection Heq as <- <-. auto.
  - destruct (fs_csv (st_fs s) (get_dataset_path config)) as [[header rows]|];
      [|discriminate].
    intros Heq. injection Heq as <- <-. simpl. auto.
Qed.

(** A lookup that raises changes nothing. *)
Lemma get_dataset_csv_raise_inv config s e s1 :
  __get_dataset_csv config s = (Raise e, s1) ->
  s1 = s /\ st_dataset_csv s = None
  /\ fs_csv (st_fs s) (get_dataset_path config) = None
  /\ e = FileNotFoundError (get_dataset_path config).
Proof.
  unfold __get_dataset_csv, bind, get, pd_read_csv, modify, ret.
  destruct (st_dataset_csv s) as [t0|] eqn:Hslot; [discriminate|].
  destruct (fs_csv (st_fs s) (get_dataset_path config)) as [[header rows]|];
    [discriminate|].
  intros Heq. injection Heq as <- <-. auto.
Qed.

Lemma run_entry_missing_file c s :
  st_dataset_csv s = None ->
  fs_csv (st_fs s) (get_dataset_path (entry_config c)) = None ->
  run_entry c s = (Raise (FileNotFoundError (get_dataset_path (entry_config c))), s).
Proof.
  intros Hslot Hfile.
  destruct c as [config|mode config shuffle|config]; simpl in *;
    unfold get_train_valid_test_loaders, get_data_loader_by_name,
      get_dataset_tag_mappings, __get_dataset_csv, bind, get, pd_read_csv;
    rewrite Hslot, Hfile; reflexivity.
Qed.

(** X1. With an empty cache slot and no label file at the configured path,
    every entry point raises [FileNotFoundError] naming that path and
    leaves the process state as it was: the failure is not cached.  A next
    call whose configuration names a readable file reads that file and is
    served from it. *)
Theorem missing_label_file_is_not_cached (c1 c2 : EntryCall) (s : State)
  (header : list string) (rows : list (list string)) :
  st_dataset_csv s = None ->
  fs_csv (st_fs s) (get_dataset_path (entry_config c1)) = None ->
  fs_csv (st_fs s) (get_dataset_path (entry_config c2)) = Some (header, rows) ->
  let t := {| tbl_id := st_next_id s; tbl_columns := header; tbl_rows := rows |} in
  run_entry c1 s = (Raise (FileNotFoundError (get_dataset_path (entry_config c1))), s)
  /\ exists r2 s',
       run_calls [c1; c2] s
       = ([Raise (FileNotFoundError (get_dataset_path (entry_config c1))); r2], s')
       /\ served_from t c2 r2
       /\ st_disk_reads s' = get_dataset_path (entry_config c2) :: st_disk_reads s
       /\ st_dataset_csv s' = Some t.
Proof.
  intros Hslot Hmiss Hfile t.
  pose proof (run_entry_missing_file c1 s Hslot Hmiss) as Hfail.
  split; [exact Hfail|].
  destruct (get_dataset_csv_first _ s header rows Hslot Hfile)
    as (s1 & Hget & Hslot1 & Hreads & _).
  destruct (run_entry_after_lookup c2 s t s1 Hget Hslot1) as (r2 & Hr2 & Hserved).
  exists r2, s1. simpl. rewrite Hfail, Hr2. auto.
Qed.

(** X2. Reading the mapping at the indices [0, ..., C-2] gives the header
    without its first column, in file order; no other index is mapped; and a
    table with at most one column yields the empty mapping. *)
Theorem index_to_tag_reads_back_header (csv : Table) :
  (fun i => __get_index_to_tag_mapping csv !! i)
    <$> seq 0 (length (tbl_columns csv) - 1)
  = Some <$> skipn 1 (tbl_columns csv)
  /\ (forall i, length (tbl_columns csv) - 1 <= i ->
        __get_index_to_tag_mapping csv !! i = None)
  /\ (length (tbl_columns csv) <= 1 -> __get_index_to_tag_mapping csv = ∅).
Proof.
  split; [|split].
  - apply list_eq. intros i. rewrite !list_lookup_fmap.
    destruct (decide (i < length (tbl_columns csv) - 1)) as [Hlt|Hge].
    + rewrite lookup_seq_lt by exact Hlt. simpl.
      rewrite index_to_tag_lookup, lookup_drop.
      replace (1 + i) with (i + 1) by lia.
      destruct (lookup_lt_is_Some_2 (tbl_columns csv) (i + 1)) as [x Hx]; [lia|].
      rewrite Hx. reflexivity.
    + rewrite lookup_seq_ge by lia. simpl.
      rewrite (lookup_ge_None_2 (skipn 1 (tbl_columns csv))); [reflexivity|].
      rewrite length_skipn. lia.
  - intros i Hi. rewrite index_to_tag_lookup. apply lookup_ge_None_2. lia.
  - intros Hle. apply map_eq. intros i.
    rewrite index_to_tag_lookup, lookup_empty. apply lookup_ge_None_2. lia.
Qed.

(** The writer's handle has been set to [None]. *)
Lemma add_images_closed (w : TensorBoardWriter.t) tag images step s :
  existsb (Nat.eqb (tbw_id w)) (st_tb_closed s) = true ->
  add_images w tag images step s
  = (Raise (AttributeError "'NoneType' object has no attribute 'add_images'"), s).
Proof.
  intros Hc. unfold add_images, bind, get. rewrite Hc. reflexivity.
Qed.

Lemma add_images_open (w : TensorBoardWriter.t) tag images step s :
  existsb (Nat.eqb (tbw_id w)) (st_tb_closed s) = false ->
  add_images w tag images step s
  = (Ok tt, set_tb_events (AddImages (tbw_id w) tag images step :: st_tb_events s) s).
Proof.
  intros Hc. unfold add_images, bind, get. rewrite Hc. reflexivity.
Qed.

(** [close_writer] returns, leaves the handle closed and keeps the events. *)
Lemma close_writer_state (w : TensorBoardWriter.t) (s : State) :
  fst (close_writer w s) = Ok tt
  /\ existsb (Nat.eqb (tbw_id w)) (st_tb_closed (snd (close_writer w s))) = true
  /\ st_tb_events (snd (close_writer w s)) = st_tb_events s.
Proof.
  unfold close_writer, bind, get, modify, ret.
  destruct (existsb (Nat.eqb (tbw_id w)) (st_tb_closed s)) eqn:Hc; simpl.
  - auto.
  - rewrite Nat.eqb_refl. auto.
Qed.

(** X3. [close_writer] is idempotent: a second close returns without
    changing anything.  After the close every [add_images] on that writer
    raises [AttributeError] and records no event, while a writer with
    another handle that was open stays usable. *)
Theorem close_writer_idempotent (w : TensorBoardWriter.t) (s : State) :
  let s1 := snd (close_writer w s) in
  fst (close_writer w s) = Ok tt
  /\ close_writer w s1 = (Ok tt, s1)
  /\ (forall tag images step,
        add_images w tag images step s1
        = (Raise (AttributeError "'NoneType' object has no attribute 'add_images'"), s1))
  /\ (forall w' tag images step,
        tbw_id w' <> tbw_id w ->
        existsb (Nat.eqb (tbw_id w')) (st_tb_closed s) = false ->
        fst (add_images w' tag images step s1) = Ok tt).
Proof.
  assert (Hclosed : existsb (Nat.eqb (tbw_id w)) (st_tb_closed (snd (close_writer w s)))
                    = true).
  { unfold close_writer, bind, get, modify, ret.
    destruct (existsb (Nat.eqb (tbw_id w)) (st_tb_closed s)) eqn:Hc; simpl.
    - exact Hc.
    - rewrite Nat.eqb_refl. reflexivity. }
  intros s1. split; [|split; [|split]].
  - unfold close_writer, bind, get, modify, ret.
    destruct (existsb (Nat.eqb (tbw_id w)) (st_tb_closed s)); reflexivity.
  - unfold close_writer at 1, bind, get. subst s1. rewrite Hclosed. reflexivity.
  - intros. apply add_images_closed. exact Hclosed.
  - intros w' tag images step Hne Hopen.
    rewrite add_images_open; [reflexivity|].
    subst s1. unfold close_writer, bind, get, modify, ret.
    destruct (existsb (Nat.eqb (tbw_id w)) (st_tb_closed s)) eqn:Hc; simpl.
    + exact Hopen.
    + rewrite Hopen. apply Nat.eqb_neq in Hne. rewrite Hne. reflexivity.
Qed.

(** The successful call, step by step. *)
Lemma write_image_test_results_spec (w : TensorBoardWriter.t)
  (images : list Image) (true_labels predictions : BinMatrix) (step : Z)
  (runmode dataSubset : string) (s s1 : State) (t : Table) :
  __get_dataset_csv (tbw_config w) s = (Ok t, s1) ->
  existsb (Nat.eqb (tbw_id w)) (st_tb_closed s) = false ->
  write_image_test_results w images true_labels predictions step runmode dataSubset s
  = (Ok tt,
     set_tb_events
       (WriterEvents.test_result_events w images true_labels predictions step runmode
          dataSubset (__get_index_to_tag_mapping t) ++ st_tb_events s) s1).
Proof.
  intros Hget Hopen.
  destruct (get_dataset_csv_ok_inv _ _ _ _ Hget) as (Hslot & Hclosed & Hevents).
  unfold write_image_test_results, get_dataset_tag_mappings.
  unfold bind at 1. unfold bind at 1. unfold bind at 1. rewrite Hget.
  unfold modify at 1, ret at 1. rewrite (set_dataset_csv_same _ _ Hslot).
  rewrite <- Hclosed in Hopen.
  assert (Hstep : forall tag imgs s',
            st_tb_closed s' = st_tb_closed s1 ->
            add_images w tag imgs step s'
            = (Ok tt, set_tb_events (AddImages (tbw_id w) tag imgs step
                                     :: st_tb_events s') s')).
  { intros tag imgs s' Hs'. apply add_images_open. rewrite Hs'. exact Hopen. }
  unfold bind at 1. rewrite Hstep by reflexivity.
  unfold bind at 1. rewrite Hstep by reflexivity.
  unfold bind at 1. rewrite Hstep by reflexivity.
  rewrite Hstep by reflexivity.
  unfold WriterEvents.test_result_events. cbn [st_tb_events set_tb_events app].
  rewrite Hevents. reflexivity.
Qed.

(** X4. On an open writer, when the label table can be obtained,
    [write_image_test_results] returns after recording exactly four image
    events, in the order Images, True Labels, Predictions,
    OverlayPredictions, all tagged [runmode/dataSubset/...] and carrying the
    same step; the overlay is rendered with the tag mapping of that table.
    Apart from the events, the state is the one the table lookup left. *)
Theorem write_image_test_results_records_four (w : TensorBoardWriter.t)
  (images : list Image) (true_labels predictions : BinMatrix) (step : Z)
  (runmode dataSubset : string) (s s1 : State) (t : Table) :
  __get_dataset_csv (tbw_config w) s = (Ok t, s1) ->
  existsb (Nat.eqb (tbw_id w)) (st_tb_closed s) = false ->
  write_image_test_results w images true_labels predictions step runmode dataSubset s
  = (Ok tt,
     set_tb_events
       (WriterEvents.test_result_events w images true_labels predictions step runmode
          dataSubset (__get_index_to_tag_mapping t) ++ st_tb_events s) s1).
Proof. apply write_image_test_results_spec. Qed.

(** X5. [write_image_test_results] records all four events or none: in
    every state and for every writer, it either returns with exactly the
    four events added, or raises with the event log as it was.  It raises
    when the label file cannot be read or the writer has been closed. *)
Theorem write_image_test_results_all_or_nothing (w : TensorBoardWriter.t)
  (images : list Image) (true_labels predictions : BinMatrix) (step : Z)
  (runmode dataSubset : string) (s : State) :
  let r := write_image_test_results w images true_labels predictions step runmode
             dataSubset s in
  (fst r = Ok tt
   /\ existsb (Nat.eqb (tbw_id w)) (st_tb_closed s) = false
   /\ exists mapping,
        st_tb_events (snd r)
        = WriterEvents.test_result_events w images true_labels predictions step
            runmode dataSubset mapping ++ st_tb_events s)
  \/ (exists e, fst r = Raise e
       /\ st_tb_events (snd r) = st_tb_events s
       /\ ((e = FileNotFoundError (get_dataset_path (tbw_config w))
            /\ st_dataset_csv s = None)
           \/ (e = AttributeError "'NoneType' object has no attribute 'add_images'"
               /\ existsb (Nat.eqb (tbw_id w)) (st_tb_closed s) = true))).
Proof.
  intros r. subst r.
  destruct (__get_dataset_csv (tbw_config w) s) as [[t|e] s1] eqn:Hget.
  - destruct (existsb (Nat.eqb (tbw_id w)) (st_tb_closed s)) eqn:Hopen.
    + right.
      destruct (get_dataset_csv_ok_inv _ _ _ _ Hget) as (Hslot & Hclosed & Hevents).
      exists (AttributeError "'NoneType' object has no attribute 'add_images'").
      assert (Hcall : write_image_test_results w images true_labels predictions step
                        runmode dataSubset s
                      = (Raise (AttributeError
                                  "'NoneType' object has no attribute 'add_images'"), s1)).
      { unfold write_image_test_results, get_dataset_tag_mappings.
        unfold bind at 1. unfold bind at 1. unfold bind at 1. rewrite Hget.
        unfold modify at 1, ret at 1. rewrite (set_dataset_csv_same _ _ Hslot).
        rewrite <- Hclosed in Hopen.
        unfold bind at 1. rewrite add_images_closed by exact Hopen. reflexivity. }
      rewrite Hcall. simpl. rewrite Hevents. auto.
    + left.
      rewrite (write_image_test_results_spec _ _ _ _ _ _ _ _ _ _ Hget Hopen).
      simpl. split; [reflexivity|]. split; [reflexivity|]. eexists. reflexivity.
  - right. destruct (get_dataset_csv_raise_inv _ _ _ _ Hget) as (-> & Hslot & _ & ->).
    eexists.
    assert (Hcall : write_image_test_results w images true_labels predictions step
                      runmode dataSubset s
                    = (Raise (FileNotFoundError (get_dataset_path (tbw_config w))), s)).
    { unfold write_image_test_results, get_dataset_tag_mappings.
      unfold bind at 1. unfold bind at 1. unfold bind at 1. rewrite Hget.
      reflexivity. }
    rewrite Hcall. simpl. auto.
Qed.

(** X18. The loaders the two loader entry points build.  Once the label
    table is obtained, [get_train_valid_test_loaders] returns loaders over
    the splits [train], [valid] and [test] of that one table, all with the
    configured batch size, of which only the training loader shuffles, and
    [get_data_loader_by_name] returns the loader of the named split with the
    shuffle flag it was given.  A configured batch size of 0 is refused by
    the loader constructor only after the table has been read and cached. *)
Theorem loader_entry_points_after_lookup (config : Config) (s s1 : State) (t : Table) :
  __get_dataset_csv config s = (Ok t, s1) ->
  let loader mode shuffle :=
    {| dl_dataset := ImageDataset t mode config;
       dl_batch_size := batch_size config;
       dl_shuffle := shuffle |} in
  let refused :=
    ValueError "batch_size should be a positive integer value, but got batch_size=0" in
  get_train_valid_test_loaders config s
  = (match batch_size config with
     | O => Raise refused
     | S _ => Ok (loader "train" true, loader "valid" false, loader "test" false)
     end, s1)
  /\ (forall mode shuffle,
        get_data_loader_by_name mode config shuffle s
        = (match batch_size config with
           | O => Raise refused
           | S _ => Ok (loader mode shuffle)
           end, s1))
  /\ st_dataset_csv s1 = Some t.
Proof.
  intros Hget loader refused.
  destruct (get_dataset_csv_ok_inv _ _ _ _ Hget) as (Hslot & _ & _).
  split; [|split; [|exact Hslot]].
  - unfold get_train_valid_test_loaders, bind. rewrite Hget.
    unfold modify, ret. rewrite (set_dataset_csv_same _ _ Hslot).
    subst loader refused. unfold DataLoader_new.
    destruct (batch_size config); reflexivity.
  - intros mode shuffle. unfold get_data_loader_by_name, bind. rewrite Hget.
    unfold modify, ret. rewrite (set_dataset_csv_same _ _ Hslot).
    subst loader refused. unfold DataLoader_new.
    destruct (batch_size config); reflexivity.
Qed.

End WithCollaborators.

#[local] Existing Instance Demo.collaborators.

Lemma missing_label_file_is_not_cached_witness :
  run_entry (CallTagMappings Demo.other_config) (Demo.state true)
  = (Raise (FileNotFoundError "datasets/birds.csv"), Demo.state true)
  /\ exists r2 s',
       run_calls [CallTagMappings Demo.other_config; CallTagMappings Demo.config]
         (Demo.state true)
       = ([Raise (FileNotFoundError "datasets/birds.csv"); r2], s')
       /\ served_from Demo.pets_table (CallTagMappings Demo.config) r2
       /\ st_disk_reads s' = ["datasets/pets.csv"]
       /\ st_dataset_csv s' = Some Demo.pets_table.
Proof.
  exact (missing_label_file_is_not_cached (CallTagMappings Demo.other_config)
           (CallTagMappings Demo.config) (Demo.state true) Demo.pets_header
           Demo.pets_rows eq_refl eq_refl eq_refl).
Defined.

Lemma loader_entry_points_after_lookup_witness :
  let loader mode shuffle :=
    {| dl_dataset := ImageDataset Demo.pets_table mode Demo.config;
       dl_batch_size := 2;
       dl_shuffle := shuffle |} in
  let s1 := snd (__get_dataset_csv Demo.config (Demo.state true)) in
  get_train_valid_test_loaders Demo.config (Demo.state true)
  = (Ok (loader "train" true, loader "valid" false, loader "test" false), s1)
  /\ (forall mode shuffle,
        get_data_loader_by_name mode Demo.config shuffle (Demo.state true)
        = (Ok (loader mode shuffle), s1))
  /\ st_dataset_csv s1 = Some Demo.pets_table.
Proof.
  exact (loader_entry_points_after_lookup Demo.config (Demo.state true)
           (snd (__get_dataset_csv Demo.config (Demo.state true))) Demo.pets_table
           eq_refl).
Defined.

Lemma write_image_test_results_records_four_witness :
  write_image_test_results DemoRest.writer [[1%R]] [[false; true]] [[true; true]] 5
    "Test" "Validation" (Demo.state true)
  = (Ok tt,
     set_tb_events
       (WriterEvents.test_result_events DemoRest.writer [[1%R]] [[false; true]]
          [[true; true]] 5 "Test" "Validation"
          (__get_index_to_tag_mapping Demo.pets_table) ++ [])
       (snd (__get_dataset_csv Demo.config (Demo.state true)))).
Proof.
  exact (write_image_test_results_records_four DemoRest.writer [[1%R]] [[false; true]]
           [[true; true]] 5 "Test" "Validation" (Demo.state true)
           (snd (__get_dataset_csv Demo.config (Demo.state true))) Demo.pets_table
           eq_refl eq_refl).
Defined.

End CacheAndWriterProperties.

(** ** Further properties of the evaluator *)
Module EvaluatorProperties.
Import Torch TorchFacts ModelEvaluator ModelEvaluatorFacts ModelEvaluatorRest.
Section WithCollaborators.
Context `{Collaborators}.

(** One pass over a loader, spelled out. *)
Lemma iter_samples_eq (dl : DataLoader) (s : State) :
  iter_samples dl s
  = (Ok (select_samples (ds_samples (dl_dataset dl))
           (if dl_shuffle dl
            then randperm (st_torch_seed s) (length (ds_samples (dl_dataset dl)))
            else seq 0 (length (ds_samples (dl_dataset dl))))),
     if dl_shuffle dl then set_torch_seed (S (st_torch_seed s)) s else s).
Proof.
  unfold iter_samples, sampler_order, bind, get, modify, ret.
  destruct (dl_shuffle dl); reflexivity.
Qed.

(** The samples a pass visits depend on the state through the seed only. *)
Lemma iter_samples_frame (dl : DataLoader) (s1 s2 : State) :
  st_torch_seed s1 = st_torch_seed s2 ->
  fst (iter_samples dl s1) = fst (iter_samples dl s2).
Proof. intros Hseed. rewrite !iter_samples_eq. simpl. rewrite Hseed. reflexivity. Qed.

(** Batch [k] is the slice of [batch_size] rows starting at row
    [k * batch_size]. *)
Lemma chunks_fuel_lookup {A} n : forall fuel (l : list A) k c,
  chunks_fuel fuel n l !! k = Some c -> c = firstn n (skipn (k * n) l).
Proof.
  induction fuel as [|fuel IH]; intros l k c Hk; [discriminate|].
  destruct l as [|x l]; [discriminate|].
  change (chunks_fuel (S fuel) n (x :: l))
    with (firstn n (x :: l) :: chunks_fuel fuel n (skipn n (x :: l))) in Hk.
  destruct k as [|k]; simpl in Hk.
  - injection Hk as <-. reflexivity.
  - apply IH in Hk. rewrite Hk, skipn_skipn. f_equal. f_equal. lia.
Qed.

(** [len(data_loader)]: the number of batches is the sample count divided
    by the batch size, rounded up. *)
Lemma length_chunks_fuel {A} n : 1 <= n ->
  forall fuel (l : list A), length l <= fuel ->
    length (chunks_fuel fuel n l) = (length l + n - 1) / n.
Proof.
  intros Hn. induction fuel as [|fuel IH]; intros l Hlen.
  - destruct l; [|simpl in Hlen; lia]. simpl.
    symmetry. apply Nat.div_small. lia.
  - destruct l as [|x l].
    + simpl. symmetry. apply Nat.div_small. lia.
    + change (chunks_fuel (S fuel) n (x :: l))
        with (firstn n (x :: l) :: chunks_fuel fuel n (skipn n (x :: l))).
      cbn [length]. rewrite IH by (rewrite length_skipn; simpl in *; lia).
      rewrite length_skipn. cbn [length].
      destruct (le_lt_dec (S (length l)) n) as [Hsmall|Hbig].
      * replace (S (length l) - n) with 0 by lia.
        rewrite (Nat.div_small (0 + n - 1) n) by lia.
        apply (Nat.div_unique _ n 1 (S (length l) - 1)); lia.
      * replace (S (length l) + n - 1) with ((S (length l) - n + n - 1) + 1 * n) by lia.
        rewrite Nat.div_add by lia. lia.
Qed.

Lemma length_chunks {A} n (l : list A) :
  1 <= n -> length (chunks n l) = (length l + n - 1) / n.
Proof. intros Hn. apply length_chunks_fuel; [exact Hn | reflexivity]. Qed.

(** The state [predict] leaves, whether it returns or raises. *)
Lemma predict_final_state (self : t) (dl : DataLoader) (s : State) :
  exists samples s0,
    iter_samples dl s = (Ok samples, s0)
    /\ snd (predict self dl s)
       = set_grad_enabled (st_grad_enabled s)
           (set_forward_log
              (rev (map (fun c : list Sample => (length c, false))
                      (chunks (dl_batch_size dl) samples)) ++ st_forward_log s0)
              (set_grad_enabled false s0)).
Proof.
  destruct (iter_samples_spec dl s)
    as (samples & s0 & Hiter & _ & _ & Hgrad & Hlog & _).
  exists samples, s0. split; [exact Hiter|].
  assert (Hloader : iter_loader dl (set_grad_enabled false s)
                    = (Ok (map collate (chunks (dl_batch_size dl) samples)),
                       set_grad_enabled false s0)).
  { unfold iter_loader. rewrite (bind_ok _ _ _ _ _ (Hgrad false)). reflexivity. }
  unfold predict. erewrite bind_ok.
  2:{ unfold with_no_grad. rewrite (bind_ok _ _ _ _ _ Hloader), predict_loop_spec.
      reflexivity. }
  cbn [app st_grad_enabled set_grad_enabled st_forward_log].
  destruct (chunks (dl_batch_size dl) samples) as [|c chs]; [reflexivity|].
  unfold bind, np_vstack, py_truediv. cbn [map].
  destruct (length (ds_samples (dl_dataset dl))); reflexivity.
Qed.

(** [predict] neither draws from [random] nor records events. *)
Lemma predict_frame (self : t) (dl : DataLoader) (s : State) :
  st_random (snd (predict self dl s)) = st_random s
  /\ st_tb_events (snd (predict self dl s)) = st_tb_events s.
Proof.
  destruct (predict_final_state self dl s) as (samples & s0 & Hiter & ->).
  rewrite iter_samples_eq in Hiter. injection Hiter as _ <-.
  destruct (dl_shuffle dl); simpl; auto.
Qed.


Lemma zip_with2_app {A B C} (f : A -> B -> C) (xs xs' : list A) (ys ys' : list B) :
  length xs = length ys ->
  zip_with2 f (xs ++ xs') (ys ++ ys') = zip_with2 f xs ys ++ zip_with2 f xs' ys'.
Proof.
  revert ys. induction xs as [|x xs IH]; intros [|y ys] Hlen; simpl in *;
    try discriminate; [reflexivity|].
  f_equal. apply IH. lia.
Qed.

Lemma sum_list_app (a b : list R) : sum_list (a ++ b) = (sum_list a + sum_list b)%R.
Proof. induction a as [|x a IH]; simpl; [lra | rewrite IH; lra]. Qed.

Lemma element_losses_app (A A' B B' : Matrix) :
  length A = length B ->
  element_losses (A ++ A') (B ++ B') = element_losses A B ++ element_losses A' B'.
Proof.
  intros Hlen. unfold element_losses.
  rewrite zip_with2_app by exact Hlen. apply concat_app.
Qed.

(** With a summing criterion the running total is the sum of the element
    losses of all rows seen so far. *)
Lemma accumulated_loss_sum (self : t) :
  criterion self = BCEWithLogitsLoss_with reduction_sum ->
  (forall c, length (chunk_scores self c) = length c) ->
  forall chs L,
    accumulated_loss self chs L
    = (L + sum_list (element_losses (concat (map (chunk_scores self) chs))
                       (float_of_labels (concat (map (map s_label) chs)))))%R.
Proof.
  intros Hcrit Hshape. unfold accumulated_loss.
  induction chs as [|c chs IH]; intros L.
  - simpl. lra.
  - cbn [fold_left map concat]. rewrite IH.
    unfold float_of_labels at 2. rewrite map_app. fold (float_of_labels (map s_label c)).
    fold (float_of_labels (concat (map (map s_label) chs))).
    rewrite element_losses_app, sum_list_app.
    + unfold chunk_loss. rewrite Hcrit. unfold BCEWithLogitsLoss_with. lra.
    + unfold float_of_labels. rewrite Hshape, !length_map. reflexivity.
Qed.

(** X7. With a criterion that sums the element losses, the average loss
    [predict] returns is the sum of the element losses of all returned rows
    divided by the sample count: the loss of the whole dataset taken as one
    batch, whatever the batch size and the visiting order. *)
Theorem predict_sum_reduction_average (self : t) (dl : DataLoader) (s : State) :
  criterion self = BCEWithLogitsLoss_with reduction_sum ->
  1 <= dl_batch_size dl ->
  ds_samples (dl_dataset dl) <> [] ->
  (forall images, length (m_forward (model self) false images) = length images) ->
  exists scores labels s',
    predict self dl s
    = (Ok (scores, labels,
           (BCEWithLogitsLoss_with reduction_sum scores (float_of_labels labels)
            / INR (length (ds_samples (dl_dataset dl))))%R), s').
Proof.
  intros Hcrit Hbs Hne Hshape.
  destruct (predict_returns self dl s Hbs Hne)
    as (samples & s0 & s' & _ & _ & _ & Hpredict & _ & _).
  assert (Hscores : forall c, length (chunk_scores self c) = length c).
  { intros c. unfold chunk_scores. rewrite Hshape. apply length_map. }
  do 2 eexists. exists s'. rewrite Hpredict. do 3 f_equal.
  rewrite (accumulated_loss_sum self Hcrit Hscores).
  rewrite <- concat_map, concat_chunks by exact Hbs.
  unfold BCEWithLogitsLoss_with. lra.
Qed.

(** [random.randint(a, b)] on a non-empty range. *)
Lemma random_randint_spec (a b : Z) (s : State) :
  (a <= b)%Z ->
  exists k,
    random_randint a b s = (Ok k, set_random (tl (st_random s)) s)
    /\ (a <= k <= b)%Z.
Proof.
  intros Hab. unfold random_randint.
  destruct (b <? a)%Z eqn:Hlt; [lia|].
  unfold bind, get, modify, ret.
  destruct (st_random s) as [|d rest] eqn:Hr.
  - exists a. split; [|lia]. f_equal. destruct s; simpl in *. subst. reflexivity.
  - eexists. split; [reflexivity|].
    pose proof (Z.mod_pos_bound (Z.of_nat d) (b - a + 1)). lia.
Qed.

(** The slice [l[k*n : min((k+1)*n, len(l))]] is batch [k] of [l]. *)
Lemma py_slice_chunk {A} (l : list A) (k n : nat) :
  py_slice l (Z.of_nat k * Z.of_nat n)
    (Z.min ((Z.of_nat k + 1) * Z.of_nat n) (Z.of_nat (length l)))
  = firstn n (skipn (k * n) l).
Proof.
  unfold py_slice.
  replace (Z.to_nat (Z.of_nat k * Z.of_nat n)) with (k * n) by lia.
  replace (Z.to_nat (Z.min ((Z.of_nat k + 1) * Z.of_nat n) (Z.of_nat (length l))))
    with (Nat.min (k * n + n) (length l)) by lia.
  destruct (le_lt_dec (k * n + n) (length l)) as [Hfull|Hlast].
  - f_equal. lia.
  - rewrite !firstn_all2; [reflexivity| |]; rewrite length_skipn; lia.
Qed.

Lemma chunks_lookup_lt {A} n (l : list A) (k : nat) :
  1 <= n -> k < (length l + n - 1) / n ->
  chunks n l !! k = Some (firstn n (skipn (k * n) l)).
Proof.
  intros Hn Hk. rewrite <- (length_chunks n l Hn) in Hk.
  destruct (lookup_lt_is_Some_2 _ _ Hk) as [c Hc].
  rewrite Hc. f_equal. exact (chunks_fuel_lookup _ _ _ _ _ Hc).
Qed.

(** A pass over a loader that does not shuffle. *)
Lemma iter_loader_unshuffled (dl : DataLoader) (s : State) :
  dl_shuffle dl = false ->
  iter_loader dl s
  = (Ok (map collate (chunks (dl_batch_size dl) (ds_samples (dl_dataset dl)))), s).
Proof.
  intros Hsh. unfold iter_loader. unfold bind. rewrite iter_samples_eq, Hsh.
  pose proof (select_samples_seq (ds_samples (dl_dataset dl)) []) as Hseq.
  simpl in Hseq. rewrite Hseq. reflexivity.
Qed.

Lemma len_loader_empty (dl : DataLoader) :
  ds_samples (dl_dataset dl) = [] -> len_loader dl = 0.
Proof.
  intros Hempty. unfold len_loader. rewrite Hempty. simpl.
  destruct (dl_batch_size dl) as [|n]; [reflexivity|].
  apply Nat.div_small. lia.
Qed.

Lemma len_loader_pos (dl : DataLoader) :
  1 <= dl_batch_size dl -> ds_samples (dl_dataset dl) <> [] -> 1 <= len_loader dl.
Proof.
  intros Hbs Hne. unfold len_loader.
  rewrite <- (length_chunks (dl_batch_size dl) (ds_samples (dl_dataset dl)) Hbs).
  pose proof (chunks_nonempty (dl_batch_size dl) _ Hne) as Hch.
  destruct (chunks (dl_batch_size dl) (ds_samples (dl_dataset dl)));
    [congruence | simpl; lia].
Qed.

(** X8. Logging a random batch from a loader that does not shuffle.  With
    a writer, a metric mode, an open writer handle, the label table already
    cached, a positive batch size, at least one sample and one prediction
    row per sample, [evaluate_predictions] returns the metrics; it draws one
    batch index [k] below [len(data_loader)], and the binarized predictions
    it slices out by index arithmetic are exactly batch [k] of the binarized
    prediction matrix, as many rows as the logged batch has images.  The four
    image events of that batch are recorded and one random draw is
    consumed. *)
Theorem evaluate_predictions_logs_aligned_batch (self : t) (w : TensorBoardWriter.t)
  (dl : DataLoader) (outputs : Matrix) (labels : BinMatrix) (epoch : Z)
  (datasetSubset metricMode : string) (average : option string) (threshold : option R)
  (s : State) (table : Table) :
  tensorBoardWriter self = Some w ->
  dl_shuffle dl = false ->
  1 <= dl_batch_size dl ->
  ds_samples (dl_dataset dl) <> [] ->
  length outputs = length (ds_samples (dl_dataset dl)) ->
  st_dataset_csv s = Some table ->
  existsb (Nat.eqb (TensorBoardWriter.tbw_id w)) (st_tb_closed s) = false ->
  exists k chunk selected s',
    k < len_loader dl
    /\ chunks (dl_batch_size dl) (ds_samples (dl_dataset dl)) !! k = Some chunk
    /\ chunks (dl_batch_size dl)
         (MetricUtils.getpredictions_with_threshold outputs threshold) !! k
       = Some selected
    /\ length selected = length chunk
    /\ evaluate_predictions self dl outputs labels epoch datasetSubset average
         (Some metricMode) threshold s
       = (Ok (let '(precision, recall, f1) :=
                compute_metrics labels
                  (MetricUtils.getpredictions_with_threshold outputs threshold)
                  threshold average in
              (f1, precision, recall)), s')
    /\ st_tb_events s'
       = WriterEvents.test_result_events w (map s_image chunk) (map s_label chunk)
           selected epoch metricMode datasetSubset
           (DatasetUtils.__get_index_to_tag_mapping table) ++ st_tb_events s
    /\ st_random s' = tl (st_random s).
Proof.
  intros Hw Hsh Hbs Hne Hrows Hslot Hopen.
  pose proof (len_loader_pos dl Hbs Hne) as Hlen.
  destruct (random_randint_spec 0 (Z.of_nat (len_loader dl) - 1) s) as (kz & Hrand & Hk);
    [lia|].
  set (k := Z.to_nat kz).
  assert (Hkz : kz = Z.of_nat k) by (subst k; lia).
  assert (Hklt : k < len_loader dl) by lia.
  set (preds := MetricUtils.getpredictions_with_threshold outputs threshold).
  assert (Hpreds : length preds = length (ds_samples (dl_dataset dl))).
  { subst preds. unfold MetricUtils.getpredictions_with_threshold.
    rewrite length_map. exact Hrows. }
  set (chunk := firstn (dl_batch_size dl)
                  (skipn (k * dl_batch_size dl) (ds_samples (dl_dataset dl)))).
  set (selected := firstn (dl_batch_size dl) (skipn (k * dl_batch_size dl) preds)).
  assert (Hchunk : chunks (dl_batch_size dl) (ds_samples (dl_dataset dl)) !! k
                   = Some chunk).
  { apply chunks_lookup_lt; [exact Hbs | exact Hklt]. }
  assert (Hsel : chunks (dl_batch_size dl) preds !! k = Some selected).
  { apply chunks_lookup_lt; [exact Hbs|]. rewrite Hpreds. exact Hklt. }
  set (s1 := set_random (tl (st_random s)) s) in *.
  assert (Hwrite :
    TensorBoardWriter.write_image_test_results w (map s_image chunk) (map s_label chunk)
      selected epoch metricMode datasetSubset s1
    = (Ok tt,
       set_tb_events
         (WriterEvents.test_result_events w (map s_image chunk) (map s_label chunk)
            selected epoch metricMode datasetSubset
            (DatasetUtils.__get_index_to_tag_mapping table) ++ st_tb_events s1) s1)).
  { apply CacheAndWriterProperties.write_image_test_results_spec; [|exact Hopen].
    apply DatasetUtilsFacts.get_dataset_csv_cached. exact Hslot. }
  exists k, chunk, selected. eexists.
  split; [exact Hklt|]. split; [exact Hchunk|]. split; [exact Hsel|].
  split.
  { subst chunk selected. rewrite !length_firstn, !length_skipn, Hpreds. reflexivity. }
  assert (Hcall :
    evaluate_predictions self dl outputs labels epoch datasetSubset average
      (Some metricMode) threshold s
    = (Ok (let '(precision, recall, f1) :=
             compute_metrics labels preds threshold average in
           (f1, precision, recall)),
       set_tb_events
         (WriterEvents.test_result_events w (map s_image chunk) (map s_label chunk)
            selected epoch metricMode datasetSubset
            (DatasetUtils.__get_index_to_tag_mapping table) ++ st_tb_events s1) s1)).
  { unfold evaluate_predictions. fold preds.
    destruct (compute_metrics labels preds threshold average) as [[precision recall] f1].
    rewrite Hw.
    unfold bind at 1. unfold bind at 1. rewrite Hrand.
    unfold islice_next. unfold bind at 1. unfold bind at 1.
    rewrite (iter_loader_unshuffled dl s1 Hsh).
    rewrite Hkz, Nat2Z.id.
    pose proof (EvaluatorClaims.lookup_map collate
                  (chunks (dl_batch_size dl) (ds_samples (dl_dataset dl))) k) as Hl.
    rewrite Hchunk in Hl. simpl in Hl. rewrite Hl.
    unfold ret at 1. cbn [b_image b_label collate].
    rewrite py_slice_chunk. fold selected.
    rewrite Hwrite. reflexivity. }
  split; [exact Hcall|]. split; reflexivity.
Qed.

(** X9. On a data source without samples, [evaluate_predictions] with a
    writer and a metric mode raises [ValueError] from [random.randint(0, -1)]
    although the metrics were computed; no random draw is consumed, no
    event is recorded and the state is as before. *)
Theorem evaluate_predictions_empty_source_raises (self : t) (w : TensorBoardWriter.t)
  (dl : DataLoader) (outputs : Matrix) (labels : BinMatrix) (epoch : Z)
  (datasetSubset metricMode : string) (average : option string)
  (threshold : option R) (s : State) :
  tensorBoardWriter self = Some w ->
  ds_samples (dl_dataset dl) = [] ->
  evaluate_predictions self dl outputs labels epoch datasetSubset average
    (Some metricMode) threshold s
  = (Raise (ValueError "empty range for randrange()"), s).
Proof.
  intros Hwriter Hempty. unfold evaluate_predictions.
  destruct (compute_metrics labels
              (MetricUtils.getpredictions_with_threshold outputs threshold)
              threshold average) as [[precision recall] f1].
  rewrite Hwriter.
  unfold bind at 1. unfold bind at 1.
  rewrite (len_loader_empty dl Hempty). reflexivity.
Qed.

(** [metricutils.f1_score] *)
Variable f1_score : BinMatrix -> BinMatrix -> R.

(** The loop of [evaluate_old] when nothing is logged. *)
Lemma evaluate_old_loop_spec (self : t) (epoch : Z) (datasetSubset : string)
  (metricMode : option string) (threshold : option R) (kz : Z) :
  metricMode = None \/ tensorBoardWriter self = None ->
  forall (chs : list (list Sample)) (i : nat) (P T : list BinMatrix) (L : R) (s : State),
    evaluate_old_loop self (module_eval (model self)) epoch datasetSubset metricMode
      threshold kz (DatasetUtils.enumerate_from i (map collate chs)) (P, T, L) s
    = (Ok (P ++ map (fun c => MetricUtils.getpredictions_with_threshold
                                (chunk_scores self c) threshold) chs,
           T ++ map (map s_label) chs,
           accumulated_loss self chs L),
       set_forward_log
         (rev (map (fun c : list Sample => (length c, st_grad_enabled s)) chs)
          ++ st_forward_log s) s).
Proof.
  intros Hoff.
  induction chs as [|c chs IH]; intros i P T L s.
  - simpl. rewrite !app_nil_r, set_forward_log_same. reflexivity.
  - cbn [map DatasetUtils.enumerate_from evaluate_old_loop].
    unfold bind at 1.
    assert (Hstep :
      evaluate_old_step self (module_eval (model self)) epoch datasetSubset metricMode
        threshold kz (P, T, L) (i, collate c) s
      = (Ok (P ++ [MetricUtils.getpredictions_with_threshold (chunk_scores self c)
                     threshold],
             T ++ [map s_label c],
             (L + chunk_loss self c)%R),
         set_forward_log ((length c, st_grad_enabled s) :: st_forward_log s) s)).
    { unfold evaluate_old_step, forward, bind, get, modify, ret. simpl.
      rewrite length_map.
      destruct Hoff as [-> | ->]; [reflexivity|].
      destruct metricMode; reflexivity. }
    rewrite Hstep, IH. simpl. rewrite <- !app_assoc. reflexivity.
Qed.

(** X10. When nothing is logged (no metric mode or no writer),
    [evaluate_old] on a data source with a positive batch size and at least
    one sample returns the average loss [predict] returns from the same
    state, and the F1 score of the true-label matrix of [predict] against
    the binarization of the score matrix of [predict]: binarizing batch by
    batch and stacking gives the same matrix as stacking and binarizing.
    It runs the same forward passes and consumes one random draw for a
    batch index it never uses. *)
Theorem evaluate_old_agrees_with_predict (self : t) (dl : DataLoader) (epoch : Z)
  (datasetSubset : string) (metricMode : option string) (threshold : option R)
  (s : State) :
  metricMode = None \/ tensorBoardWriter self = None ->
  1 <= dl_batch_size dl ->
  ds_samples (dl_dataset dl) <> [] ->
  exists scores labels avg_loss s1 s2,
    predict self dl s = (Ok (scores, labels, avg_loss), s1)
    /\ evaluate_old f1_score self dl epoch datasetSubset metricMode threshold s
       = (Ok (avg_loss,
              f1_score labels
                (MetricUtils.getpredictions_with_threshold scores threshold)), s2)
    /\ st_forward_log s2 = st_forward_log s1
    /\ st_grad_enabled s2 = st_grad_enabled s
    /\ st_random s2 = tl (st_random s).
Proof.
  intros Hoff Hbs Hne.
  destruct (predict_returns self dl s Hbs Hne)
    as (samples & s0 & s1 & Hiter & Hperm & _ & Hpredict & Hlog1 & _).
  pose proof (len_loader_pos dl Hbs Hne) as Hlen.
  destruct (random_randint_spec 0 (Z.of_nat (len_loader dl) - 1) s) as (kz & Hrand & _);
    [lia|].
  set (sr := set_random (tl (st_random s)) s) in *.
  destruct (iter_samples_spec dl sr)
    as (samples' & s0' & Hiter' & _ & _ & Hgrad & Hlog & _).
  assert (Hsame : samples' = samples).
  { pose proof (iter_samples_frame dl sr s eq_refl) as Hf.
    rewrite Hiter', Hiter in Hf. simpl in Hf. congruence. }
  subst samples'.
  assert (Hsamples : samples <> []).
  { intros ->. apply Permutation_nil in Hperm. auto. }
  pose proof (chunks_nonempty (dl_batch_size dl) samples Hsamples) as Hchunks.
  assert (Hloader : iter_loader dl (set_grad_enabled false sr)
                    = (Ok (map collate (chunks (dl_batch_size dl) samples)),
                       set_grad_enabled false s0')).
  { unfold iter_loader. rewrite (bind_ok _ _ _ _ _ (Hgrad false)). reflexivity. }
  do 3 eexists. exists s1.
  exists (set_grad_enabled (st_grad_enabled sr)
            (set_forward_log
               (rev (map (fun c : list Sample => (length c, false))
                       (chunks (dl_batch_size dl) samples)) ++ st_forward_log s0')
               (set_grad_enabled false s0'))).
  split; [exact Hpredict|]. split; [|split; [|split]].
  - unfold evaluate_old. rewrite (bind_ok _ _ _ _ _ Hrand).
    erewrite bind_ok.
    2:{ unfold with_no_grad. rewrite (bind_ok _ _ _ _ _ Hloader).
        unfold DatasetUtils.enumerate.
        rewrite (evaluate_old_loop_spec self epoch datasetSubset metricMode threshold
                   kz Hoff).
        reflexivity. }
    cbn [app].
    destruct (chunks (dl_batch_size dl) samples) as [|c chs] eqn:Hch; [congruence|].
    destruct (ds_samples (dl_dataset dl)) as [|x xs] eqn:Hds; [congruence|].
    unfold bind, np_vstack, py_truediv. cbn [map length]. unfold ret.
    apply f_equal2; [|reflexivity]. do 3 f_equal.
    + change (map s_label c :: map (map s_label) chs)
        with (map (map s_label) (c :: chs)).
      rewrite <- Hch, <- concat_map, concat_chunks by exact Hbs. reflexivity.
    + change (chunk_scores self c :: map (chunk_scores self) chs)
        with (map (chunk_scores self) (c :: chs)).
      unfold MetricUtils.getpredictions_with_threshold.
      rewrite concat_map, map_map. reflexivity.
  - cbn [st_forward_log set_grad_enabled set_forward_log].
    rewrite Hlog, Hlog1. reflexivity.
  - reflexivity.
  - cbn [st_random set_grad_enabled set_forward_log].
    rewrite iter_samples_eq in Hiter'. injection Hiter' as _ <-.
    destruct (dl_shuffle dl); reflexivity.
Qed.

(** The events [evaluate_old] records while it walks the batches [chs],
    numbered from [i], when the drawn index is [k]. *)
Lemma evaluate_old_loop_logging (self : t) (w : TensorBoardWriter.t) (epoch : Z)
  (datasetSubset metricMode : string) (threshold : option R) (k : nat) (table : Table) :
  tensorBoardWriter self = Some w ->
  forall (chs : list (list Sample)) (i : nat) (P T : list BinMatrix) (L : R) (s : State),
    st_dataset_csv s = Some table ->
    existsb (Nat.eqb (TensorBoardWriter.tbw_id w)) (st_tb_closed s) = false ->
    exists s',
      evaluate_old_loop self (module_eval (model self)) epoch datasetSubset
        (Some metricMode) threshold (Z.of_nat k)
        (DatasetUtils.enumerate_from i (map collate chs)) (P, T, L) s
      = (Ok (P ++ map (fun c => MetricUtils.getpredictions_with_threshold
                                  (chunk_scores self c) threshold) chs,
             T ++ map (map s_label) chs,
             accumulated_loss self chs L), s')
      /\ st_forward_log s'
         = rev (map (fun c : list Sample => (length c, st_grad_enabled s)) chs)
           ++ st_forward_log s
      /\ st_tb_events s'
         = (if (i <=? k)%nat
            then match chs !! (k - i) with
                 | Some c =>
                     WriterEvents.test_result_events w (map s_image c) (map s_label c)
                       (MetricUtils.getpredictions_with_threshold (chunk_scores self c)
                          threshold)
                       epoch metricMode datasetSubset
                       (DatasetUtils.__get_index_to_tag_mapping table)
                 | None => []
                 end
            else []) ++ st_tb_events s
      /\ st_dataset_csv s' = Some table
      /\ st_tb_closed s' = st_tb_closed s
      /\ st_grad_enabled s' = st_grad_enabled s
      /\ st_random s' = st_random s.
Proof.
  intros Hw.
  induction chs as [|c chs IH]; intros i P T L s Hslot Hopen.
  - exists s. simpl. rewrite !app_nil_r.
    split; [reflexivity|]. split; [reflexivity|].
    split; [destruct (i <=? k)%nat; reflexivity|]. auto.
  - cbn [map DatasetUtils.enumerate_from evaluate_old_loop].
    set (sf := set_forward_log ((length c, st_grad_enabled s) :: st_forward_log s) s).
    set (preds := MetricUtils.getpredictions_with_threshold (chunk_scores self c)
                    threshold).
    assert (Hstep : exists s1,
      evaluate_old_step self (module_eval (model self)) epoch datasetSubset
        (Some metricMode) threshold (Z.of_nat k) (P, T, L) (i, collate c) s
      = (Ok (P ++ [preds], T ++ [map s_label c], (L + chunk_loss self c)%R), s1)
      /\ st_forward_log s1 = (length c, st_grad_enabled s) :: st_forward_log s
      /\ st_tb_events s1
         = (if (i =? k)%nat
            then WriterEvents.test_result_events w (map s_image c) (map s_label c)
                   preds epoch metricMode datasetSubset
                   (DatasetUtils.__get_index_to_tag_mapping table)
            else []) ++ st_tb_events s
      /\ st_dataset_csv s1 = Some table
      /\ st_tb_closed s1 = st_tb_closed s
      /\ st_grad_enabled s1 = st_grad_enabled s
      /\ st_random s1 = st_random s).
    { unfold evaluate_old_step. rewrite Hw.
      unfold bind at 1. unfold forward, bind at 1, bind at 1, get at 1, modify at 1.
      unfold ret at 1. cbn [b_image b_label collate]. rewrite length_map.
      fold sf. fold (chunk_scores self c). fold preds.
      destruct (Nat.eqb_spec i k) as [->|Hne].
      - rewrite Z.eqb_refl.
        rewrite (bind_ok _ _ _ _ _
                   (CacheAndWriterProperties.write_image_test_results_spec w
                      (map s_image c) (map s_label c) preds epoch metricMode
                      datasetSubset sf sf table
                      (DatasetUtilsFacts.get_dataset_csv_cached _ sf table Hslot) Hopen)).
        eexists. split; [reflexivity|]. subst sf.
        split; [reflexivity|]. split; [reflexivity|]. split; [exact Hslot|].
        split; [reflexivity|]. split; reflexivity.
      - destruct (Z.eqb_spec (Z.of_nat i) (Z.of_nat k)) as [Heq|_]; [lia|].
        eexists. split; [reflexivity|]. subst sf.
        split; [reflexivity|]. split; [reflexivity|]. split; [exact Hslot|].
        split; [reflexivity|]. split; reflexivity. }
    destruct Hstep as (s1 & Hstep & Hlog1 & Hev1 & Hslot1 & Hclosed1 & Hgrad1 & Hrand1).
    rewrite (bind_ok _ _ _ _ _ Hstep).
    destruct (IH (S i) (P ++ [preds]) (T ++ [map s_label c]) (L + chunk_loss self c)%R s1
                Hslot1) as (s' & Hloop & Hlog & Hev & Hslot' & Hclosed' & Hgrad' & Hrand').
    { rewrite Hclosed1. exact Hopen. }
    exists s'. rewrite Hloop. rewrite <- !app_assoc.
    split; [reflexivity|].
    split.
    { rewrite Hlog, Hlog1, Hgrad1. simpl. rewrite <- app_assoc. reflexivity. }
    split.
    { rewrite Hev, Hev1.
      destruct (Nat.eqb_spec i k) as [->|Hne].
      - rewrite (proj2 (Nat.leb_gt (S k) k)) by lia.
        rewrite Nat.leb_refl, Nat.sub_diag. reflexivity.
      - destruct (Nat.leb_spec i k) as [Hle|Hgt].
        + rewrite (proj2 (Nat.leb_le (S i) k)) by lia.
          replace (k - i) with (S (k - S i)) by lia. reflexivity.
        + rewrite (proj2 (Nat.leb_gt (S i) k)) by lia. reflexivity. }
    split; [exact Hslot'|]. split; [congruence|]. split; congruence.
Qed.

(** X20. [evaluate_old] with a writer and a metric mode, on an open writer
    with the label table cached, a positive batch size and at least one
    sample: it returns the same average loss and F1 score as without
    logging, and records the four image events of exactly one batch, the
    one whose number it drew.  The logged predictions are the
    binarization of that batch's own outputs, so they belong to the logged
    images also when the loader shuffles. *)
Theorem evaluate_old_logs_one_batch (self : t) (w : TensorBoardWriter.t)
  (dl : DataLoader) (epoch : Z) (datasetSubset metricMode : string)
  (threshold : option R) (s : State) (table : Table) :
  tensorBoardWriter self = Some w ->
  1 <= dl_batch_size dl ->
  ds_samples (dl_dataset dl) <> [] ->
  st_dataset_csv s = Some table ->
  existsb (Nat.eqb (TensorBoardWriter.tbw_id w)) (st_tb_closed s) = false ->
  exists k samples s0 chunk scores labels avg_loss s1 s2,
    iter_samples dl s = (Ok samples, s0)
    /\ k < len_loader dl
    /\ chunks (dl_batch_size dl) samples !! k = Some chunk
    /\ predict self dl s = (Ok (scores, labels, avg_loss), s1)
    /\ evaluate_old f1_score self dl epoch datasetSubset (Some metricMode) threshold s
       = (Ok (avg_loss,
              f1_score labels
                (MetricUtils.getpredictions_with_threshold scores threshold)), s2)
    /\ st_tb_events s2
       = WriterEvents.test_result_events w (map s_image chunk) (map s_label chunk)
           (MetricUtils.getpredictions_with_threshold (chunk_scores self chunk)
              threshold)
           epoch metricMode datasetSubset
           (DatasetUtils.__get_index_to_tag_mapping table) ++ st_tb_events s.
Proof.
  intros Hw Hbs Hne Hslot Hopen.
  destruct (predict_returns self dl s Hbs Hne)
    as (samples & s0 & s1 & Hiter & Hperm & _ & Hpredict & _ & _).
  pose proof (len_loader_pos dl Hbs Hne) as Hlen.
  destruct (random_randint_spec 0 (Z.of_nat (len_loader dl) - 1) s) as (kz & Hrand & Hk);
    [lia|].
  set (k := Z.to_nat kz).
  assert (Hkz : kz = Z.of_nat k) by (subst k; lia).
  assert (Hklt : k < len_loader dl) by lia.
  set (sr := set_random (tl (st_random s)) s) in *.
  destruct (iter_samples_spec dl sr)
    as (samples' & s0' & Hiter' & _ & _ & Hgrad & _ & _).
  assert (Hsame : samples' = samples).
  { pose proof (iter_samples_frame dl sr s eq_refl) as Hf.
    rewrite Hiter', Hiter in Hf. simpl in Hf. congruence. }
  subst samples'.
  assert (Hsamples : samples <> []).
  { intros ->. apply Permutation_nil in Hperm. auto. }
  pose proof (chunks_nonempty (dl_batch_size dl) samples Hsamples) as Hchunks.
  assert (Hchunk : exists chunk, chunks (dl_batch_size dl) samples !! k = Some chunk).
  { apply lookup_lt_is_Some_2. rewrite length_chunks by exact Hbs.
    rewrite (Permutation_length Hperm). exact Hklt. }
  destruct Hchunk as (chunk & Hchunk).
  assert (Hloader : iter_loader dl (set_grad_enabled false sr)
                    = (Ok (map collate (chunks (dl_batch_size dl) samples)),
                       set_grad_enabled false s0')).
  { unfold iter_loader. rewrite (bind_ok _ _ _ _ _ (Hgrad false)). reflexivity. }
  assert (Hs0' : st_dataset_csv (set_grad_enabled false s0') = Some table
                 /\ existsb (Nat.eqb (TensorBoardWriter.tbw_id w))
                      (st_tb_closed (set_grad_enabled false s0')) = false
                 /\ st_tb_events (set_grad_enabled false s0') = st_tb_events s).
  { rewrite iter_samples_eq in Hiter'. injection Hiter' as _ <-.
    destruct (dl_shuffle dl); simpl; auto. }
  destruct Hs0' as (Hslot0 & Hopen0 & Hev0).
  destruct (evaluate_old_loop_logging self w epoch datasetSubset metricMode threshold k
              table Hw (chunks (dl_batch_size dl) samples) 0 [] [] 0%R
              (set_grad_enabled false s0') Hslot0 Hopen0)
    as (sl & Hloop & _ & Hev & _).
  exists k, samples, s0, chunk. do 3 eexists. exists s1.
  exists (set_grad_enabled (st_grad_enabled sr) sl).
  split; [exact Hiter|]. split; [exact Hklt|]. split; [exact Hchunk|].
  split; [exact Hpredict|]. split.
  - unfold evaluate_old. rewrite (bind_ok _ _ _ _ _ Hrand).
    erewrite bind_ok.
    2:{ unfold with_no_grad. rewrite (bind_ok _ _ _ _ _ Hloader).
        unfold DatasetUtils.enumerate. rewrite Hkz, Hloop. reflexivity. }
    cbn [app].
    destruct (chunks (dl_batch_size dl) samples) as [|c chs] eqn:Hch; [congruence|].
    destruct (ds_samples (dl_dataset dl)) as [|x xs] eqn:Hds; [congruence|].
    unfold bind, np_vstack, py_truediv. cbn [map length]. unfold ret.
    apply f_equal2; [|reflexivity]. do 3 f_equal.
    + change (map s_label c :: map (map s_label) chs)
        with (map (map s_label) (c :: chs)).
      rewrite <- Hch, <- concat_map, concat_chunks by exact Hbs. reflexivity.
    + change (chunk_scores self c :: map (chunk_scores self) chs)
        with (map (chunk_scores self) (c :: chs)).
      unfold MetricUtils.getpredictions_with_threshold.
      rewrite concat_map, map_map. reflexivity.
  - cbn [st_tb_events set_grad_enabled]. rewrite Hev, Hev0.
    rewrite Nat.sub_0_r, Hchunk. reflexivity.
Qed.

(** X19. [evaluate] on a data source without samples raises the
    [ValueError] of [predict] and never reaches [evaluate_predictions]:
    even with a writer and a metric mode, no random draw is consumed and no
    event is recorded. *)
Theorem evaluate_empty_source (self : t) (dl : DataLoader) (epoch : Z)
  (datasetSubset : string) (metricMode average : option string)
  (threshold : option R) (s : State) :
  ds_samples (dl_dataset dl) = [] ->
  exists s',
    evaluate self dl epoch datasetSubset metricMode average threshold s
    = (Raise (ValueError "need at least one array to concatenate"), s')
    /\ st_random s' = st_random s
    /\ st_tb_events s' = st_tb_events s
    /\ st_forward_log s' = st_forward_log s.
Proof.
  intros Hempty.
  destruct (predict_empty_raises self dl s Hempty) as (s' & Hraise & Hlog).
  pose proof (predict_frame self dl s) as (Hr & He).
  exists s'. unfold evaluate. rewrite (bind_raise _ _ _ _ _ Hraise).
  rewrite Hraise in Hr, He. simpl in Hr, He. auto.
Qed.


(** X12. Using an evaluator that has a writer in a [with] block: the block
    yields what its body yields, result or exception alike, and when it is
    left the writer's handle is closed, so that a later [add_images] on it
    raises; the events the body recorded are kept. *)
Theorem with_evaluator_closes_writer {A} (self : t) (w : TensorBoardWriter.t)
  (body : t -> M A) (s : State) :
  tensorBoardWriter self = Some w ->
  let r := with_evaluator self body s in
  fst r = fst (body self s)
  /\ existsb (Nat.eqb (TensorBoardWriter.tbw_id w)) (st_tb_closed (snd r)) = true
  /\ st_tb_events (snd r) = st_tb_events (snd (body self s))
  /\ (forall tag images step,
        fst (TensorBoardWriter.add_images w tag images step (snd r))
        = Raise (AttributeError "'NoneType' object has no attribute 'add_images'")).
Proof.
  intros Hw r.
  assert (Hexit : forall s1,
            __exit__ self s1 = (Ok tt, snd (TensorBoardWriter.close_writer w s1))).
  { intros s1. unfold __exit__. rewrite Hw.
    destruct (CacheAndWriterProperties.close_writer_state w s1) as (Hok & _).
    destruct (TensorBoardWriter.close_writer w s1) as [r1 s2]. simpl in *.
    subst r1. reflexivity. }
  assert (Hr : r = (fst (body self s),
                    snd (TensorBoardWriter.close_writer w (snd (body self s))))).
  { subst r. unfold with_evaluator, __enter__, bind, ret.
    destruct (body self s) as [[a|e] s1]; rewrite Hexit; reflexivity. }
  rewrite Hr. cbn [fst snd].
  destruct (CacheAndWriterProperties.close_writer_state w (snd (body self s)))
    as (_ & Hclosed & Hevents).
  split; [reflexivity|]. split; [exact Hclosed|]. split; [exact Hevents|].
  intros tag images step.
  rewrite CacheAndWriterProperties.add_images_closed by exact Hclosed. reflexivity.
Qed.

End WithCollaborators.

#[local] Existing Instance Demo.collaborators.

Lemma predict_sum_reduction_average_witness :
  exists scores labels s',
    predict DemoRest.summing_evaluator Demo.loader (Demo.state true)
    = (Ok (scores, labels,
           (BCEWithLogitsLoss_with reduction_sum scores (float_of_labels labels)
            / INR (length (ds_samples (dl_dataset Demo.loader))))%R), s').
Proof.
  apply (predict_sum_reduction_average DemoRest.summing_evaluator Demo.loader
           (Demo.state true)).
  - reflexivity.
  - simpl. lia.
  - discriminate.
  - intros images. simpl. apply length_map.
Defined.

Lemma evaluate_predictions_logs_aligned_batch_witness :
  exists k chunk selected s',
    k < len_loader DemoRest.ordered_loader
    /\ chunks 2 (ds_samples (dl_dataset DemoRest.ordered_loader)) !! k = Some chunk
    /\ chunks 2
         (MetricUtils.getpredictions_with_threshold [[0; 0]; [0; 0]; [0; 0]]%R
            (Some (1 / 2)%R)) !! k
       = Some selected
    /\ length selected = length chunk
    /\ evaluate_predictions DemoRest.logging_evaluator DemoRest.ordered_loader
         [[0; 0]; [0; 0]; [0; 0]]%R [[false; true]; [true; false]; [true; true]] 3
         "Validation" (Some "micro") (Some "Test") (Some (1 / 2)%R) DemoRest.warm_state
       = (Ok (let '(precision, recall, f1) :=
                compute_metrics [[false; true]; [true; false]; [true; true]]
                  (MetricUtils.getpredictions_with_threshold [[0; 0]; [0; 0]; [0; 0]]%R
                     (Some (1 / 2)%R))
                  (Some (1 / 2)%R) (Some "micro") in
              (f1, precision, recall)), s')
    /\ st_tb_events s'
       = WriterEvents.test_result_events DemoRest.writer (map s_image chunk)
           (map s_label chunk) selected 3 "Test" "Validation"
           (DatasetUtils.__get_index_to_tag_mapping Demo.pets_table)
         ++ st_tb_events DemoRest.warm_state
    /\ st_random s' = tl (st_random DemoRest.warm_state).
Proof.
  apply (evaluate_predictions_logs_aligned_batch DemoRest.logging_evaluator
           DemoRest.writer DemoRest.ordered_loader [[0; 0]; [0; 0]; [0; 0]]%R
           [[false; true]; [true; false]; [true; true]] 3 "Validation" "Test"
           (Some "micro") (Some (1 / 2)%R) DemoRest.warm_state Demo.pets_table).
  - reflexivity.
  - reflexivity.
  - simpl. lia.
  - discriminate.
  - reflexivity.
  - reflexivity.
  - reflexivity.
Defined.

Lemma evaluate_predictions_empty_source_raises_witness :
  evaluate_predictions DemoRest.logging_evaluator Demo.empty_loader [] [] 3 "Validation"
    (Some "micro") (Some "Test") (Some (1 / 2)%R) DemoRest.warm_state
  = (Raise (ValueError "empty range for randrange()"), DemoRest.warm_state).
Proof.
  apply (evaluate_predictions_empty_source_raises DemoRest.logging_evaluator
           DemoRest.writer Demo.empty_loader).
  - reflexivity.
  - reflexivity.
Defined.

Lemma evaluate_old_agrees_with_predict_witness :
  exists scores labels avg_loss s1 s2,
    predict Demo.evaluator Demo.loader (Demo.state true)
    = (Ok (scores, labels, avg_loss), s1)
    /\ evaluate_old DemoRest.f1_score Demo.evaluator Demo.loader 3 "Validation"
         (Some "Test") (Some (1 / 2)%R) (Demo.state true)
       = (Ok (avg_loss,
              DemoRest.f1_score labels
                (MetricUtils.getpredictions_with_threshold scores (Some (1 / 2)%R))), s2)
    /\ st_forward_log s2 = st_forward_log s1
    /\ st_grad_enabled s2 = st_grad_enabled (Demo.state true)
    /\ st_random s2 = tl (st_random (Demo.state true)).
Proof.
  apply (evaluate_old_agrees_with_predict DemoRest.f1_score Demo.evaluator Demo.loader 3
           "Validation" (Some "Test") (Some (1 / 2)%R) (Demo.state true)).
  - right. reflexivity.
  - simpl. lia.
  - discriminate.
Defined.


Lemma evaluate_old_logs_one_batch_witness :
  exists k samples s0 chunk scores labels avg_loss s1 s2,
    iter_samples Demo.loader DemoRest.warm_state = (Ok samples, s0)
    /\ k < len_loader Demo.loader
    /\ chunks 2 samples !! k = Some chunk
    /\ predict DemoRest.logging_evaluator Demo.loader DemoRest.warm_state
       = (Ok (scores, labels, avg_loss), s1)
    /\ evaluate_old DemoRest.f1_score DemoRest.logging_evaluator Demo.loader 3
         "Validation" (Some "Test") (Some (1 / 2)%R) DemoRest.warm_state
       = (Ok (avg_loss,
              DemoRest.f1_score labels
                (MetricUtils.getpredictions_with_threshold scores (Some (1 / 2)%R))), s2)
    /\ st_tb_events s2
       = WriterEvents.test_result_events DemoRest.writer (map s_image chunk)
           (map s_label chunk)
           (MetricUtils.getpredictions_with_threshold
              (chunk_scores DemoRest.logging_evaluator chunk) (Some (1 / 2)%R))
           3 "Test" "Validation"
           (DatasetUtils.__get_index_to_tag_mapping Demo.pets_table)
         ++ st_tb_events DemoRest.warm_state.
Proof.
  apply (evaluate_old_logs_one_batch DemoRest.f1_score DemoRest.logging_evaluator
           DemoRest.writer Demo.loader 3 "Validation" "Test" (Some (1 / 2)%R)
           DemoRest.warm_state Demo.pets_table).
  - reflexivity.
  - simpl. lia.
  - discriminate.
  - reflexivity.
  - reflexivity.
Defined.

Lemma evaluate_empty_source_witness :
  exists s',
    evaluate DemoRest.logging_evaluator Demo.empty_loader 3 "Validation" (Some "Test")
      (Some "micro") (Some (1 / 2)%R) DemoRest.warm_state
    = (Raise (ValueError "need at least one array to concatenate"), s')
    /\ st_random s' = st_random DemoRest.warm_state
    /\ st_tb_events s' = st_tb_events DemoRest.warm_state
    /\ st_forward_log s' = st_forward_log DemoRest.warm_state.
Proof.
  apply (evaluate_empty_source DemoRest.logging_evaluator Demo.empty_loader 3
           "Validation" (Some "Test") (Some "micro") (Some (1 / 2)%R)
           DemoRest.warm_state).
  reflexivity.
Defined.

Lemma with_evaluator_closes_writer_witness :
  let body := fun e : ModelEvaluator.t => predict e Demo.empty_loader in
  fst (with_evaluator DemoRest.logging_evaluator body (Demo.state true))
  = fst (body DemoRest.logging_evaluator (Demo.state true))
  /\ existsb (Nat.eqb (TensorBoardWriter.tbw_id DemoRest.writer))
       (st_tb_closed (snd (with_evaluator DemoRest.logging_evaluator body
                             (Demo.state true)))) = true
  /\ st_tb_events (snd (with_evaluator DemoRest.logging_evaluator body (Demo.state true)))
     = st_tb_events (snd (body DemoRest.logging_evaluator (Demo.state true)))
  /\ (forall tag images step,
        fst (TensorBoardWriter.add_images DemoRest.writer tag images step
               (snd (with_evaluator DemoRest.logging_evaluator body (Demo.state true))))
        = Raise (AttributeError "'NoneType' object has no attribute 'add_images'")).
Proof.
  apply (with_evaluator_closes_writer DemoRest.logging_evaluator DemoRest.writer
           (fun e : ModelEvaluator.t => predict e Demo.empty_loader) (Demo.state true)).
  reflexivity.
Defined.

End EvaluatorProperties.

(** ** Further properties of the inference driver *)
Module DriverProperties.
Import ModelEvaluator Inference.
Section WithCollaborators.
Context `{Collaborators}.

Lemma from_file_missing (config : Config) (dev : Device)
  (writer : option TensorBoardWriter.t) (thisconfig : Config) (s : State) :
  os_path_exists (st_fs s) (get_model_to_load_path config) = false ->
  from_file config dev writer thisconfig s
  = (Raise (ValueError (missing_model_message (get_model_to_load_path config))),
     set_log ((ERROR, "Could not find a model at path: "
                      +:+ get_model_to_load_path config) :: st_log s) s).
Proof.
  intros Hex.
  unfold from_file, bind, get, logger_error, modify, raise. rewrite Hex. reflexivity.
Qed.

(** The driver up to the point where it looks at the input path. *)
Ltac main_setup Hmk Hev :=
  unfold main;
  unfold bind at 1; unfold get at 1;
  unfold bind at 1; unfold makedirs at 1, bind at 1, get at 1; rewrite Hmk;
  unfold modify at 1;
  rewrite (bind_ok _ _ _ _ _ Hev);
  unfold bind at 1, get at 1;
  cbn [st_fs set_fs set_log].


(** X14. The single-image path of the driver.  Once the output folder is
    created and the evaluator is loaded, an image-file input ends in the
    [AttributeError] of looking up [single_image_prediction], a method the
    evaluator does not have; nothing is saved and the label table is not
    read. *)
Theorem main_image_file_raises (config : Config) (args : Args) (s : State) (fs1 : FS) :
  os_makedirs (st_fs s) (resolve_output_folder args) = Ok fs1 ->
  os_path_exists fs1 (get_model_to_load_path config) = true ->
  fs_is_dir fs1 (Path (input_path args)) = false ->
  fs_is_file fs1 (Path (input_path args)) = true ->
  str_endswith_any (str_lower (Path (input_path args))) image_extensions = true ->
  exists s',
    main config args s
    = (Raise (AttributeError
                "'ModelEvaluator' object has no attribute 'single_image_prediction'"), s')
    /\ st_saved s' = st_saved s
    /\ st_forward_log s' = st_forward_log s
    /\ st_disk_reads s' = st_disk_reads s.
Proof.
  intros Hmk Hckpt Hdir Hfile Himg.
  destruct (InferenceClaims.from_file_found config
              (if st_cuda_available s then cuda else cpu) None
              config (set_fs fs1 s) Hckpt) as (ev & Hev).
  main_setup Hmk Hev.
  rewrite Hdir, Hfile, Himg. eexists. split; [reflexivity|]. simpl. auto.
Qed.


(** X16. For every command line and every state, the driver writes no
    output media, runs no batch through the model and leaves the dataset
    cache alone.  It returns normally only after printing one of its two
    error lines; on every other path it raises and prints nothing. *)
Theorem main_never_saves (config : Config) (args : Args) (s : State) :
  let r := main config args s in
  st_saved (snd r) = st_saved s
  /\ st_forward_log (snd r) = st_forward_log s
  /\ st_dataset_csv (snd r) = st_dataset_csv s
  /\ st_disk_reads (snd r) = st_disk_reads s
  /\ ((fst r = Ok tt
       /\ exists line,
            st_stdout (snd r) = line :: st_stdout s
            /\ (line = "Unsupported file type for input: " +:+ Path (input_path args)
                \/ line = "Invalid input path: " +:+ Path (input_path args)))
      \/ (exists e, fst r = Raise e /\ st_stdout (snd r) = st_stdout s)).
Proof.
  intros r. subst r.
  destruct (main config args s) as [res s'] eqn:Hm. revert Hm.
  destruct (os_makedirs (st_fs s) (resolve_output_folder args)) as [fs1|e] eqn:Hmk.
  - destruct (os_path_exists fs1 (get_model_to_load_path config)) eqn:Hckpt.
    + destruct (InferenceClaims.from_file_found config
                  (if st_cuda_available s then cuda else cpu) None
                  config (set_fs fs1 s) Hckpt) as (ev & Hev).
      main_setup Hmk Hev.
      destruct (fs_is_dir fs1 (Path (input_path args))).
      { destruct (batch_size config); intros Hm; injection Hm as <- <-; simpl;
          repeat (split; [reflexivity|]); right; eexists; split; reflexivity. }
      destruct (fs_is_file fs1 (Path (input_path args))).
      * destruct (str_endswith_any (str_lower (Path (input_path args))) image_extensions).
        { intros Hm; injection Hm as <- <-; simpl;
            repeat (split; [reflexivity|]); right; eexists; split; reflexivity. }
        destruct (str_endswith_any (str_lower (Path (input_path args))) video_extensions).
        { destruct (batch_size config); intros Hm; injection Hm as <- <-; simpl;
            repeat (split; [reflexivity|]); right; eexists; split; reflexivity. }
        intros Hm; injection Hm as <- <-; simpl.
        repeat (split; [reflexivity|]). left. split; [reflexivity|].
        eexists. split; [reflexivity|]. left. reflexivity.
      * intros Hm; injection Hm as <- <-; simpl.
        repeat (split; [reflexivity|]). left. split; [reflexivity|].
        eexists. split; [reflexivity|]. right. reflexivity.
    + pose proof (from_file_missing config (if st_cuda_available s then cuda else cpu)
                    None config (set_fs fs1 s) Hckpt) as Hraise.
      unfold main.
      unfold bind at 1; unfold get at 1.
      unfold bind at 1; unfold makedirs at 1, bind at 1, get at 1; rewrite Hmk.
      unfold modify at 1.
      rewrite (bind_raise _ _ _ _ _ Hraise).
      intros Hm; injection Hm as <- <-; simpl.
      repeat (split; [reflexivity|]). right. eexists. split; reflexivity.
  - unfold main.
    unfold bind at 1; unfold get at 1.
    unfold bind at 1; unfold makedirs at 1, bind at 1, get at 1; rewrite Hmk.
    intros Hm; injection Hm as <- <-.
    repeat (split; [reflexivity|]). right. eexists. split; reflexivity.
Qed.

(** *** The extension filter *)

Lemma string_length_append (a b : string) :
  String.length (a +:+ b) = String.length a + String.length b.
Proof. induction a as [|c a IH]; simpl; [reflexivity | rewrite IH; reflexivity]. Qed.

Lemma substring_all (s : string) : substring 0 (String.length s) s = s.
Proof. induction s as [|c s IH]; simpl; [reflexivity | rewrite IH; reflexivity]. Qed.

Lemma substring_after_prefix (pre suf : string) :
  substring (String.length pre) (String.length suf) (pre +:+ suf) = suf.
Proof. induction pre as [|c pre IH]; simpl; [apply substring_all | exact IH]. Qed.

Lemma substring_split (s : string) : forall k m,
  k + m = String.length s -> s = substring 0 k s +:+ substring k m s.
Proof.
  induction s as [|c s IH]; intros k m Hlen; simpl in Hlen.
  - destruct k, m; try discriminate. reflexivity.
  - destruct k as [|k].
    + simpl in Hlen. subst m. simpl. rewrite substring_all. reflexivity.
    + change (String c s = String c (substring 0 k s +:+ substring k m s)).
      f_equal. apply IH. lia.
Qed.

(** [s.endswith(suffix)] holds exactly when [s] is some text followed by
    [suffix]. *)
Lemma str_endswith_correct (s suffix : string) :
  str_endswith s suffix = true <-> exists stem, s = stem +:+ suffix.
Proof.
  unfold str_endswith. split.
  - intros Hend. apply andb_true_iff in Hend as [Hle Heq].
    apply Nat.leb_le in Hle. apply String.eqb_eq in Heq.
    exists (substring 0 (String.length s - String.length suffix) s).
    transitivity (substring 0 (String.length s - String.length suffix) s
                  +:+ substring (String.length s - String.length suffix)
                        (String.length suffix) s).
    + apply substring_split. lia.
    + rewrite Heq. reflexivity.
  - intros [stem ->]. rewrite string_length_append. apply andb_true_iff. split.
    + apply Nat.leb_le. lia.
    + replace (String.length stem + String.length suffix - String.length suffix)
        with (String.length stem) by lia.
      rewrite substring_after_prefix. apply String.eqb_refl.
Qed.

Lemma str_lower_append (a b : string) :
  str_lower (a +:+ b) = str_lower a +:+ str_lower b.
Proof. induction a as [|c a IH]; simpl; [reflexivity | rewrite IH; reflexivity]. Qed.

Lemma list_filter_sublist {A} (f : A -> bool) (l : list A) :
  sublist (List.filter f l) l.
Proof.
  induction l as [|x l IH]; cbn [List.filter]; [constructor|].
  destruct (f x); [apply sublist_skip | apply sublist_cons]; exact IH.
Qed.

(** X17. The directory listing filter.  A path is enumerated exactly when
    it is the directory joined with an entry of the listing whose name, in
    lower case, is some text followed by [.png], [.jpg] or [.jpeg]; the
    entries keep the order of the listing, and whether an entry is a file or
    a directory is not consulted.  An entry is therefore accepted under any
    casing of its extension. *)
Theorem list_image_paths_characterised (fs : FS) (dir : string) :
  (forall p,
     In p (list_image_paths fs dir)
     <-> exists img stem ext,
           In img (fs_listdir fs dir)
           /\ p = path_join dir img
           /\ In ext [".png"; ".jpg"; ".jpeg"]
           /\ str_lower img = stem +:+ ext)
  /\ (exists kept,
        list_image_paths fs dir = map (path_join dir) kept
        /\ sublist kept (fs_listdir fs dir))
  /\ (forall stem ext,
        In (str_lower ext) [".png"; ".jpg"; ".jpeg"] ->
        str_endswith_any (str_lower (stem +:+ ext)) image_extensions = true).
Proof.
  split; [|split].
  - intros p. unfold list_image_paths. rewrite in_map_iff. split.
    + intros (img & <- & Hin). apply filter_In in Hin as [Hin Hext].
      unfold str_endswith_any in Hext. apply existsb_exists in Hext as (ext & Hext & Hend).
      apply str_endswith_correct in Hend as [stem Hstem].
      exists img, stem, ext. auto.
    + intros (img & stem & ext & Hin & -> & Hext & Hstem).
      exists img. split; [reflexivity|]. apply filter_In. split; [exact Hin|].
      unfold str_endswith_any. apply existsb_exists. exists ext. split; [exact Hext|].
      apply str_endswith_correct. exists stem. exact Hstem.
  - eexists. split; [reflexivity|]. apply list_filter_sublist.
  - intros stem ext Hext. unfold str_endswith_any. apply existsb_exists.
    exists (str_lower ext). split; [exact Hext|].
    apply str_endswith_correct. exists (str_lower stem). apply str_lower_append.
Qed.

End WithCollaborators.

#[local] Existing Instance Demo.collaborators.


Lemma main_image_file_raises_witness :
  exists s',
    main Demo.config
      {| input_path := "photos/a.jpg"; output_folder := Some "out"; time_interval := 2 |}
      (Demo.state true)
    = (Raise (AttributeError
                "'ModelEvaluator' object has no attribute 'single_image_prediction'"), s')
    /\ st_saved s' = []
    /\ st_forward_log s' = []
    /\ st_disk_reads s' = [].
Proof.
  apply (main_image_file_raises Demo.config
           {| input_path := "photos/a.jpg"; output_folder := Some "out";
              time_interval := 2 |}
           (Demo.state true) (Demo.mkdir (Demo.fs true) "out"));
    reflexivity.
Defined.

End DriverProperties.
